(** * Nimble: semantic analysis and MIPS code generation

    A shallow embedding of the Nimble compiler back end:

    - [semantics/nimblesemantics.py]: the two listeners
      [DefineScopesAndSymbols] and [InferTypesAndCheckConstraints];
    - [semantics/nimble_analyser.py]: [do_semantic_analysis];
    - [templates.py] and [nimble2MIPS.py]: the [MIPSGenerator] listener.

    Python objects that the listeners mutate are modelled by explicit state:
    the [Scope] objects live in a store indexed by creation order, the
    attributes monkey-patched on parse-tree nodes ([scope], [type], [mips])
    are optional fields of the node, and a handler is a function in a state
    and exception monad. *)

From Stdlib Require Import Ascii String.
From stdpp Require Import base option list gmap strings pretty.

Open Scope string_scope.
Open Scope list_scope.

(** ** Python exceptions and the handler monad *)

(** The built-in exceptions the modelled code can raise. *)
Inductive PyError :=
| AttributeError   (* attribute read on None, or attribute never set *)
| KeyError         (* missing enum member or missing format field *)
| IndexError       (* missing positional format argument *)
| ValueError       (* malformed format string *)
| RecursionError.  (* unbounded method recursion *)

Definition Exc (E A : Type) : Type := E + A.

Definition Run (S A : Type) : Type := S -> Exc PyError (A * S).

Definition ret {S A} (a : A) : Run S A := fun s => inr (a, s).
Definition raise {S A} (e : PyError) : Run S A := fun _ => inl e.
Definition bind {S A B} (m : Run S A) (k : A -> Run S B) : Run S B :=
  fun s => match m s with
           | inl e => inl e
           | inr (a, s') => k a s'
           end.
Definition get {S} : Run S S := fun s => inr (s, s).
Definition put {S} (s : S) : Run S unit := fun _ => inr (tt, s).
Definition modify {S} (f : S -> S) : Run S unit := fun s => inr (tt, f s).

(** Lift a pure computation that may raise. *)
Definition lift {S A} (r : Exc PyError A) : Run S A :=
  fun s => match r with inl e => inl e | inr a => inr (a, s) end.

(** Reading an attribute of an object that has no such attribute. *)
Definition getattr {A} (o : option A) : Exc PyError A :=
  match o with Some a => inr a | None => inl AttributeError end.

Declare Scope run_scope.
Delimit Scope run_scope with run.
Notation "'let*' x ':=' m 'in' k" := (bind m (fun x => k))
  (at level 10, x name, m at level 100, k at level 200) : run_scope.
Open Scope run_scope.

(** ** symboltable: PrimitiveType, Symbol, Scope *)

Module PrimitiveType.

(** Modelled from the spec: the enumeration [PrimitiveType] of the
    symboltable module, which is not among the sources. *)
Inductive t := Int | Bool | String | Void | ERROR.

Global Instance eq_dec : EqDecision t.
Proof. solve_decision. Defined.

(** [member.name] *)
Definition name (x : t) : string :=
    match x with
    | Int => "Int" | Bool => "Bool" | String => "String"
    | Void => "Void" | ERROR => "ERROR"
    end.

(** [PrimitiveType[text]]: lookup of a member by name. *)
Definition lookup (text : string) : Exc PyError t :=
    if decide (text = "Int") then inr Int
    else if decide (text = "Bool") then inr Bool
    else if decide (text = "String") then inr String
    else if decide (text = "Void") then inr Void
    else if decide (text = "ERROR") then inr ERROR
    else inl KeyError.

(** Truth value of a member: members of a plain enumeration are all true. *)
Definition truthy (x : t) : bool := true.

End PrimitiveType.

(** Modelled from the spec: a [Symbol] is a declared name paired with its
    type (symboltable module, not among the sources). *)
Record Symbol := mkSymbol { sym_name : string; sym_type : PrimitiveType.t }.

Global Instance Symbol_eq_dec : EqDecision Symbol.
Proof. solve_decision. Defined.

(** A reference to a [Scope] object: its index in the store. *)
Abbreviation ScopeRef := nat.

(** Modelled from the spec: a [Scope] has a name tag, a declared return type,
    a reference to its enclosing scope ([None] for the outermost) and a map
    from declared names to symbols (symboltable module, not among the
    sources). *)
Record Scope := mkScope {
  scope_name : string;
  return_type : PrimitiveType.t;
  enclosing_scope : option ScopeRef;
  symbols : gmap string Symbol
}.

(** The store of all [Scope] objects created so far. *)
Abbreviation Store := (list Scope).

Module ScopeOps.

(** [Scope(name, return_type, enclosing_scope)]: allocates a new object. *)
Definition new (name : string) (rt : PrimitiveType.t)
      (enclosing : option ScopeRef) (h : Store) : ScopeRef * Store :=
    (List.length h, h ++ [mkScope name rt enclosing ∅]).

(** Modelled from the spec: [define(name, type)] inserts into this scope. *)
Definition define (r : ScopeRef) (name : string) (ty : PrimitiveType.t)
      (h : Store) : Exc PyError Store :=
    match h !! r with
    | Some sc =>
        inr (<[r := mkScope (scope_name sc) (return_type sc) (enclosing_scope sc)
                       (<[name := mkSymbol name ty]> (symbols sc))]> h)
    | None => inl AttributeError
    end.

(** Modelled from the spec: [resolve_locally(name)] returns the symbol if
    it is present in exactly this scope, else none. *)
Definition resolve_locally (r : ScopeRef) (name : string) (h : Store)
      : Exc PyError (option Symbol) :=
    match h !! r with
    | Some sc => inr (symbols sc !! name)
    | None => inl AttributeError
    end.

(** Modelled from the spec: [resolve(name)] searches this scope, then its
    enclosing chain outward, and returns the nearest match or none.  The
    recursion follows the [enclosing_scope] links; [fuel] bounds the number
    of links followed. *)
Fixpoint resolve_fuel (fuel : nat) (r : ScopeRef) (name : string) (h : Store)
      : Exc PyError (option Symbol) :=
    match h !! r with
    | None => inl AttributeError
    | Some sc =>
        match symbols sc !! name with
        | Some sym => inr (Some sym)
        | None =>
            match enclosing_scope sc with
            | None => inr None
            | Some r' =>
                match fuel with
                | O => inl RecursionError
                | S fuel' => resolve_fuel fuel' r' name h
                end
            end
        end
    end.

(** A chain without a cycle visits every scope at most once. *)
Definition resolve (r : ScopeRef) (name : string) (h : Store)
      : Exc PyError (option Symbol) :=
    resolve_fuel (List.length h) r name h.

End ScopeOps.

(** ** errorlog: Category, ErrorLog *)

(** Modelled from the spec: the categories of the errorlog module, which is
    not among the sources. *)
Inductive Category :=
| UNSUPPORTED_LANGUAGE_FEATURE
| DUPLICATE_NAME
| UNDEFINED_NAME
| ASSIGN_TO_WRONG_TYPE
| INVALID_RETURN
| CONDITION_NOT_BOOL
| UNPRINTABLE_EXPRESSION
| INVALID_NEGATION
| INVALID_BINARY_OP.

Global Instance Category_eq_dec : EqDecision Category.
Proof. solve_decision. Defined.

(** The pieces of a formatted message: literal text, and the values that an
    f-string interpolates.  How a [PrimitiveType] or a [Symbol] prints is
    decided by the symboltable module, so the value itself is kept. *)
Inductive Piece :=
| Text (s : string)
| OfType (ty : PrimitiveType.t)
| OfSymbol (sym : Symbol).

Abbreviation Message := (list Piece).

(** Modelled from the spec: an entry records the offending node (here its
    source text), the category and the message. *)
Record ErrorEntry := mkEntry {
  entry_ctx : string;
  category : Category;
  message : Message
}.

Abbreviation ErrorLog := (list ErrorEntry).

Module ErrorLogOps.

(** Modelled from the spec: [add] appends an entry; it never fails and
    never removes duplicates. *)
Definition add (ctx_text : string) (cat : Category) (msg : Message)
      (log : ErrorLog) : ErrorLog :=
    log ++ [mkEntry ctx_text cat msg].

(** Modelled from the spec: [total_entries] is the number of entries. *)
Definition total_entries (log : ErrorLog) : nat := List.length log.

(** Number of entries of one category. *)
Definition count (cat : Category) (log : ErrorLog) : nat :=
    List.length (filter (fun e => category e = cat) log).

End ErrorLogOps.

(** ** The parse tree *)

(** Modelled from the spec: the parser (the [nimble] package) is not among
    the sources.  A node has a kind, its children by grammar role, its source
    text ([getText()]), and the three attributes that the passes attach to
    it: [scope], [type] and [mips].  An attribute that was never assigned is
    [None], and reading it raises [AttributeError]. *)

Record Ctx := mkCtx {
  text : string;
  scope : option ScopeRef;
  type : option PrimitiveType.t;
  mips : option string
}.

Definition set_scope (r : ScopeRef) (c : Ctx) : Ctx :=
  mkCtx (text c) (Some r) (type c) (mips c).
Definition set_type (ty : PrimitiveType.t) (c : Ctx) : Ctx :=
  mkCtx (text c) (scope c) (Some ty) (mips c).
Definition set_mips (code : string) (c : Ctx) : Ctx :=
  mkCtx (text c) (scope c) (type c) (Some code).

(** A node as the parser delivers it. *)
Definition parsed (txt : string) : Ctx := mkCtx txt None None None.

(** Modelled from the spec: the kinds of nodes and their children are those
    that the listeners name ([ctx.expr(0)], [ctx.block(0)], [ctx.ID()],
    [ctx.TYPE()], [ctx.op.text], [ctx.main()], ...); a token is kept as its
    text.  Function definitions and function calls are leaves: the passes
    report them and otherwise ignore them. *)
Inductive funcCall :=
| FuncCallContext (c : Ctx).

Inductive expr :=
| NegContext (c : Ctx) (op : string) (e : expr)
| MulDivContext (c : Ctx) (op : string) (e0 e1 : expr)
| AddSubContext (c : Ctx) (op : string) (e0 e1 : expr)
| CompareContext (c : Ctx) (op : string) (e0 e1 : expr)
| ParensContext (c : Ctx) (e : expr)
| VariableContext (c : Ctx)
| IntLiteralContext (c : Ctx) (INT : string)
| StringLiteralContext (c : Ctx)
| BoolLiteralContext (c : Ctx) (BOOL : string)
| FuncCallExprContext (c : Ctx) (f : funcCall).

Inductive statement :=
| AssignmentContext (c : Ctx) (ID : string) (e : expr)
| WhileContext (c : Ctx) (e : expr) (b : block)
| IfContext (c : Ctx) (e : expr) (b0 : block) (b1 : option block)
| PrintContext (c : Ctx) (e : expr)
| ReturnContext (c : Ctx) (e : option expr)
| FuncCallStmtContext (c : Ctx) (f : funcCall)
with block :=
| BlockContext (c : Ctx) (ss : list statement).

Inductive varDec :=
| VarDecContext (c : Ctx) (ID TYPE : string) (e : option expr).

Inductive varBlock :=
| VarBlockContext (c : Ctx) (ds : list varDec).

Inductive body :=
| BodyContext (c : Ctx) (vb : varBlock) (b : block).

Inductive main :=
| MainContext (c : Ctx) (b : body).

Inductive funcDef :=
| FuncDefContext (c : Ctx).

Inductive script :=
| ScriptContext (c : Ctx) (fs : list funcDef) (m : main).

Definition funcCall_ctx (f : funcCall) : Ctx :=
  match f with FuncCallContext c => c end.

Definition expr_ctx (e : expr) : Ctx :=
  match e with
  | NegContext c _ _ | MulDivContext c _ _ _ | AddSubContext c _ _ _
  | CompareContext c _ _ _ | ParensContext c _ | VariableContext c
  | IntLiteralContext c _ | StringLiteralContext c | BoolLiteralContext c _
  | FuncCallExprContext c _ => c
  end.

Definition statement_ctx (s : statement) : Ctx :=
  match s with
  | AssignmentContext c _ _ | WhileContext c _ _ | IfContext c _ _ _
  | PrintContext c _ | ReturnContext c _ | FuncCallStmtContext c _ => c
  end.

Definition block_ctx (b : block) : Ctx := match b with BlockContext c _ => c end.
Definition body_ctx (b : body) : Ctx := match b with BodyContext c _ _ => c end.
Definition main_ctx (m : main) : Ctx := match m with MainContext c _ => c end.
Definition script_ctx (t : script) : Ctx :=
  match t with ScriptContext c _ _ => c end.

(** ** NimbleListener and ParseTreeWalker *)

(** Modelled from the spec: the generated listener and the tree walker are
    not among the sources.  The listener has an enter and an exit method for
    every kind of node, all of them empty; listed here are the methods that
    one of the three listeners overrides.  An enter method sees the node
    before its children are walked, an exit method sees it with its children
    walked; each returns the node's attributes as it leaves them. *)

Module NimbleListener.

Record t (S : Type) := mk {
    enterScript : Ctx -> Run S Ctx;
    exitScript : Ctx -> list funcDef -> main -> Run S Ctx;
    enterFuncDef : Ctx -> Run S Ctx;
    enterFuncCall : Ctx -> Run S Ctx;
    enterMain : Ctx -> Run S Ctx;
    exitMain : Ctx -> body -> Run S Ctx;
    exitBody : Ctx -> varBlock -> block -> Run S Ctx;
    exitVarBlock : Ctx -> list varDec -> Run S Ctx;
    exitVarDec : Ctx -> string -> string -> option expr -> Run S Ctx;
    exitBlock : Ctx -> list statement -> Run S Ctx;
    exitAssignment : Ctx -> string -> expr -> Run S Ctx;
    exitWhile : Ctx -> expr -> block -> Run S Ctx;
    exitIf : Ctx -> expr -> block -> option block -> Run S Ctx;
    exitPrint : Ctx -> expr -> Run S Ctx;
    exitReturn : Ctx -> option expr -> Run S Ctx;
    exitFuncCallStmt : Ctx -> funcCall -> Run S Ctx;
    exitNeg : Ctx -> string -> expr -> Run S Ctx;
    exitMulDiv : Ctx -> string -> expr -> expr -> Run S Ctx;
    exitAddSub : Ctx -> string -> expr -> expr -> Run S Ctx;
    exitCompare : Ctx -> string -> expr -> expr -> Run S Ctx;
    exitParens : Ctx -> expr -> Run S Ctx;
    exitVariable : Ctx -> Run S Ctx;
    exitIntLiteral : Ctx -> string -> Run S Ctx;
    exitStringLiteral : Ctx -> Run S Ctx;
    exitBoolLiteral : Ctx -> string -> Run S Ctx;
    exitFuncCallExpr : Ctx -> funcCall -> Run S Ctx
  }.

Arguments mk {S}.
Arguments enterScript {S}.
Arguments exitScript {S}.
Arguments enterFuncDef {S}.
Arguments enterFuncCall {S}.
Arguments enterMain {S}.
Arguments exitMain {S}.
Arguments exitBody {S}.
Arguments exitVarBlock {S}.
Arguments exitVarDec {S}.
Arguments exitBlock {S}.
Arguments exitAssignment {S}.
Arguments exitWhile {S}.
Arguments exitIf {S}.
Arguments exitPrint {S}.
Arguments exitReturn {S}.
Arguments exitFuncCallStmt {S}.
Arguments exitNeg {S}.
Arguments exitMulDiv {S}.
Arguments exitAddSub {S}.
Arguments exitCompare {S}.
Arguments exitParens {S}.
Arguments exitVariable {S}.
Arguments exitIntLiteral {S}.
Arguments exitStringLiteral {S}.
Arguments exitBoolLiteral {S}.
Arguments exitFuncCallExpr {S}.

End NimbleListener.

Abbreviation NimbleListener := NimbleListener.t.

(** Modelled from the spec: a walk is depth first; it enters a node, walks
    its children in source order, and exits the node. *)
Module ParseTreeWalker.
Section Walk.

Context {S : Type} (L : NimbleListener S).

Definition walk_funcCall (f : funcCall) : Run S funcCall :=
    match f with
    | FuncCallContext c =>
        let* c := NimbleListener.enterFuncCall L c in
        ret (FuncCallContext c)
    end.

Fixpoint walk_expr (e : expr) : Run S expr :=
    match e with
    | NegContext c op e =>
        let* e := walk_expr e in
        let* c := NimbleListener.exitNeg L c op e in ret (NegContext c op e)
    | MulDivContext c op e0 e1 =>
        let* e0 := walk_expr e0 in let* e1 := walk_expr e1 in
        let* c := NimbleListener.exitMulDiv L c op e0 e1 in
        ret (MulDivContext c op e0 e1)
    | AddSubContext c op e0 e1 =>
        let* e0 := walk_expr e0 in let* e1 := walk_expr e1 in
        let* c := NimbleListener.exitAddSub L c op e0 e1 in
        ret (AddSubContext c op e0 e1)
    | CompareContext c op e0 e1 =>
        let* e0 := walk_expr e0 in let* e1 := walk_expr e1 in
        let* c := NimbleListener.exitCompare L c op e0 e1 in
        ret (CompareContext c op e0 e1)
    | ParensContext c e =>
        let* e := walk_expr e in
        let* c := NimbleListener.exitParens L c e in ret (ParensContext c e)
    | VariableContext c =>
        let* c := NimbleListener.exitVariable L c in ret (VariableContext c)
    | IntLiteralContext c i =>
        let* c := NimbleListener.exitIntLiteral L c i in
        ret (IntLiteralContext c i)
    | StringLiteralContext c =>
        let* c := NimbleListener.exitStringLiteral L c in
        ret (StringLiteralContext c)
    | BoolLiteralContext c b =>
        let* c := NimbleListener.exitBoolLiteral L c b in
        ret (BoolLiteralContext c b)
    | FuncCallExprContext c f =>
        let* f := walk_funcCall f in
        let* c := NimbleListener.exitFuncCallExpr L c f in
        ret (FuncCallExprContext c f)
    end.

Section Children.
Context {A : Type} (walk_child : A -> Run S A).

Definition walk_opt (o : option A) : Run S (option A) :=
      match o with
      | Some a => let* a := walk_child a in ret (Some a)
      | None => ret None
      end.

(** The children of a node are walked in source order. *)
Fixpoint walk_list (l : list A) : Run S (list A) :=
      match l with
      | [] => ret []
      | a :: l =>
          let* a := walk_child a in
          let* l := walk_list l in ret (a :: l)
      end.
End Children.

Fixpoint walk_statement (s : statement) : Run S statement :=
    match s with
    | AssignmentContext c x e =>
        let* e := walk_expr e in
        let* c := NimbleListener.exitAssignment L c x e in
        ret (AssignmentContext c x e)
    | WhileContext c e b =>
        let* e := walk_expr e in let* b := walk_block b in
        let* c := NimbleListener.exitWhile L c e b in ret (WhileContext c e b)
    | IfContext c e b0 b1 =>
        let* e := walk_expr e in let* b0 := walk_block b0 in
        let* b1 := walk_opt walk_block b1 in
        let* c := NimbleListener.exitIf L c e b0 b1 in ret (IfContext c e b0 b1)
    | PrintContext c e =>
        let* e := walk_expr e in
        let* c := NimbleListener.exitPrint L c e in ret (PrintContext c e)
    | ReturnContext c e =>
        let* e := walk_opt walk_expr e in
        let* c := NimbleListener.exitReturn L c e in ret (ReturnContext c e)
    | FuncCallStmtContext c f =>
        let* f := walk_funcCall f in
        let* c := NimbleListener.exitFuncCallStmt L c f in
        ret (FuncCallStmtContext c f)
    end
with walk_block (b : block) : Run S block :=
    match b with
    | BlockContext c ss =>
        let* ss := walk_list walk_statement ss in
        let* c := NimbleListener.exitBlock L c ss in ret (BlockContext c ss)
    end.

Definition walk_varDec (d : varDec) : Run S varDec :=
    match d with
    | VarDecContext c x ty e =>
        let* e := walk_opt walk_expr e in
        let* c := NimbleListener.exitVarDec L c x ty e in
        ret (VarDecContext c x ty e)
    end.

Definition walk_varBlock (vb : varBlock) : Run S varBlock :=
    match vb with
    | VarBlockContext c ds =>
        let* ds := walk_list walk_varDec ds in
        let* c := NimbleListener.exitVarBlock L c ds in
        ret (VarBlockContext c ds)
    end.

Definition walk_body (b : body) : Run S body :=
    match b with
    | BodyContext c vb bl =>
        let* vb := walk_varBlock vb in let* bl := walk_block bl in
        let* c := NimbleListener.exitBody L c vb bl in ret (BodyContext c vb bl)
    end.

Definition walk_main (m : main) : Run S main :=
    match m with
    | MainContext c b =>
        let* c := NimbleListener.enterMain L c in
        let* b := walk_body b in
        let* c := NimbleListener.exitMain L c b in ret (MainContext c b)
    end.

Definition walk_funcDef (f : funcDef) : Run S funcDef :=
    match f with
    | FuncDefContext c =>
        let* c := NimbleListener.enterFuncDef L c in
        ret (FuncDefContext c)
    end.

(** [walker.walk(listener, tree)] on a tree whose root is a script. *)
Definition walk (t : script) : Run S script :=
    match t with
    | ScriptContext c fs m =>
        let* c := NimbleListener.enterScript L c in
        let* fs := walk_list walk_funcDef fs in
        let* m := walk_main m in
        let* c := NimbleListener.exitScript L c fs m in
        ret (ScriptContext c fs m)
    end.

End Walk.
End ParseTreeWalker.

(** ** semantics/nimblesemantics.py *)

(** The state a semantic listener runs in: the [Scope] objects, the
    [ErrorLog] object that both listeners share, and the listener's
    [current_scope] field. *)
Record Pass := mkPass {
  store : Store;
  error_log : ErrorLog;
  current_scope : option ScopeRef
}.

(** [self.error_log.add(ctx, category, message)] *)
Definition log_add (c : Ctx) (cat : Category) (msg : Message) : Run Pass unit :=
  modify (fun s => mkPass (store s)
                          (ErrorLogOps.add (text c) cat msg (error_log s))
                          (current_scope s)).

Definition set_current_scope (r : option ScopeRef) : Run Pass unit :=
  modify (fun s => mkPass (store s) (error_log s) r).

(** [self.current_scope], as the object on which an attribute or a method is
    about to be looked up: [None] has none of them. *)
Definition the_current_scope : Run Pass ScopeRef :=
  let* s := get in lift (getattr (current_scope s)).

(** [self.current_scope.<field>] *)
Definition current_scope_field {A} (field : Scope -> A) : Run Pass A :=
  let* r := the_current_scope in
  let* s := get in
  let* sc := lift (getattr (store s !! r)) in
  ret (field sc).

(** [node.type] *)
Definition type_of (e : expr) : Exc PyError PrimitiveType.t :=
  getattr (type (expr_ctx e)).

(** The methods of the generated listener do nothing. *)
Definition pass0 {S} : Ctx -> Run S Ctx := fun c => ret c.
Definition pass1 {S A} : Ctx -> A -> Run S Ctx := fun c _ => ret c.
Definition pass2 {S A B} : Ctx -> A -> B -> Run S Ctx := fun c _ _ => ret c.
Definition pass3 {S A B C} : Ctx -> A -> B -> C -> Run S Ctx :=
  fun c _ _ _ => ret c.

Module DefineScopesAndSymbols.

(** [__init__(self, error_log)] *)
Definition init (h : Store) (log : ErrorLog) : Pass := mkPass h log None.

Definition enterScript (c : Ctx) : Run Pass Ctx :=
    let* s := get in
    let '(global_scope, h) :=
      ScopeOps.new "$global" PrimitiveType.Void None (store s) in
    let* _ := put (mkPass h (error_log s) (Some global_scope)) in
    ret (set_scope global_scope c).

Definition enterFuncDef (c : Ctx) : Run Pass Ctx :=
    let* _ := log_add c UNSUPPORTED_LANGUAGE_FEATURE
      [Text "this implementation does not support function definitions"] in
    ret c.

Definition enterFuncCall (c : Ctx) : Run Pass Ctx :=
    let* _ := log_add c UNSUPPORTED_LANGUAGE_FEATURE
      [Text "this implementation does not support function calls"] in
    ret c.

Definition enterMain (c : Ctx) : Run Pass Ctx :=
    let* s := get in
    let '(main_scope, h) :=
      ScopeOps.new "$main" PrimitiveType.Void (current_scope s) (store s) in
    let* _ := put (mkPass h (error_log s) (Some main_scope)) in
    ret (set_scope main_scope c).

Definition exitMain (c : Ctx) (b : body) : Run Pass Ctx :=
    let* enclosing := current_scope_field enclosing_scope in
    let* _ := set_current_scope enclosing in
    ret c.

Definition duplicate_name (c : Ctx) (name : string) : Run Pass bool :=
    let* r := the_current_scope in
    let* s := get in
    let* already_declared := lift (ScopeOps.resolve_locally r name (store s)) in
    match already_declared with
    | Some sym =>
        let* _ := log_add c DUPLICATE_NAME
          [Text "Can't redeclare "; Text name;
           Text "; already declared as "; OfSymbol sym] in
        ret true
    | None => ret false
    end.

Definition exitVarDec (c : Ctx) (ID TYPE : string) (e : option expr)
      : Run Pass Ctx :=
    let name := ID in
    let* dup := duplicate_name c name in
    if negb dup then
      let* _type := lift (PrimitiveType.lookup TYPE) in
      let* r := the_current_scope in
      let* s := get in
      let* h := lift (ScopeOps.define r name _type (store s)) in
      let* _ := put (mkPass h (error_log s) (current_scope s)) in
      ret c
    else ret c.

Definition listener : NimbleListener Pass := {|
    NimbleListener.enterScript := enterScript;
    NimbleListener.exitScript := pass2;
    NimbleListener.enterFuncDef := enterFuncDef;
    NimbleListener.enterFuncCall := enterFuncCall;
    NimbleListener.enterMain := enterMain;
    NimbleListener.exitMain := exitMain;
    NimbleListener.exitBody := pass2;
    NimbleListener.exitVarBlock := pass1;
    NimbleListener.exitVarDec := exitVarDec;
    NimbleListener.exitBlock := pass1;
    NimbleListener.exitAssignment := pass2;
    NimbleListener.exitWhile := pass2;
    NimbleListener.exitIf := pass3;
    NimbleListener.exitPrint := pass1;
    NimbleListener.exitReturn := pass1;
    NimbleListener.exitFuncCallStmt := pass1;
    NimbleListener.exitNeg := pass2;
    NimbleListener.exitMulDiv := pass3;
    NimbleListener.exitAddSub := pass3;
    NimbleListener.exitCompare := pass3;
    NimbleListener.exitParens := pass1;
    NimbleListener.exitVariable := pass0;
    NimbleListener.exitIntLiteral := pass1;
    NimbleListener.exitStringLiteral := pass0;
    NimbleListener.exitBoolLiteral := pass1;
    NimbleListener.exitFuncCallExpr := pass1
  |}.

End DefineScopesAndSymbols.

Module InferTypesAndCheckConstraints.

(** [__init__(self, error_log)] *)
Definition init (h : Store) (log : ErrorLog) : Pass := mkPass h log None.

Definition enterScript (c : Ctx) : Run Pass Ctx :=
    let* enclosing := current_scope_field enclosing_scope in
    let* _ := set_current_scope enclosing in
    ret c.

Definition enterMain (c : Ctx) : Run Pass Ctx :=
    let* r := lift (getattr (scope c)) in
    let* _ := set_current_scope (Some r) in
    ret c.

Definition exitMain (c : Ctx) (b : body) : Run Pass Ctx :=
    let* enclosing := current_scope_field enclosing_scope in
    let* _ := set_current_scope enclosing in
    ret c.

Definition exitReturn (c : Ctx) (e : option expr) : Run Pass Ctx :=
    let* required_type := current_scope_field return_type in
    let* returned_type :=
      match e with
      | Some e => lift (type_of e)
      | None => ret PrimitiveType.Void
      end in
    if decide (required_type ≠ returned_type) then
      let* _ := log_add c INVALID_RETURN
        [Text "Required to return "; OfType required_type;
         Text ", returns "; OfType returned_type] in
      ret c
    else ret c.

Definition log_invalid_assign (c : Ctx) (e : expr) (var_name : string)
      (_type : PrimitiveType.t) : Run Pass unit :=
    let* expr_type := lift (type_of e) in
    log_add c ASSIGN_TO_WRONG_TYPE
      [Text "Can't assign "; OfType expr_type;
       Text " expression to variable "; Text var_name;
       Text " of type "; OfType _type].

Definition exitVarDec (c : Ctx) (ID TYPE : string) (e : option expr)
      : Run Pass Ctx :=
    let* _type := lift (PrimitiveType.lookup TYPE) in
    match e with
    | Some e =>
        let* expr_type := lift (type_of e) in
        if decide (_type ≠ expr_type) then
          let* _ := log_invalid_assign c e ID _type in ret c
        else ret c
    | None => ret c
    end.

(** [self.current_scope.resolve(name).type]: the [type] attribute is read
    from whatever [resolve] returned. *)
Definition resolved_type (name : string) : Run Pass PrimitiveType.t :=
    let* r := the_current_scope in
    let* s := get in
    let* found := lift (ScopeOps.resolve r name (store s)) in
    let* sym := lift (getattr found) in
    ret (sym_type sym).

Definition exitAssignment (c : Ctx) (ID : string) (e : expr) : Run Pass Ctx :=
    let name := ID in
    let* _type := resolved_type name in
    if negb (PrimitiveType.truthy _type) then
      let* _ := log_add c UNDEFINED_NAME
        [Text "Assignment target "; Text name; Text " not declared"] in
      ret c
    else
      let* expr_type := lift (type_of e) in
      if decide (_type ≠ expr_type) then
        let* _ := log_invalid_assign c e name _type in ret c
      else ret c.

Definition check_boolean_condition (c : Ctx) (e : expr) (kind : string)
      : Run Pass Ctx :=
    let* expr_type := lift (type_of e) in
    if decide (expr_type ≠ PrimitiveType.Bool) then
      let* _ := log_add c CONDITION_NOT_BOOL
        [Text kind; Text " condition "; Text (text c);
         Text " has type "; OfType expr_type; Text " not Bool"] in
      ret c
    else ret c.

Definition exitWhile (c : Ctx) (e : expr) (b : block) : Run Pass Ctx :=
    check_boolean_condition c e "While".

Definition exitIf (c : Ctx) (e : expr) (b0 : block) (b1 : option block)
      : Run Pass Ctx :=
    check_boolean_condition c e "If".

Definition exitPrint (c : Ctx) (e : expr) : Run Pass Ctx :=
    let* expr_type := lift (type_of e) in
    if decide (expr_type = PrimitiveType.ERROR) then
      let* _ := log_add c UNPRINTABLE_EXPRESSION
        [Text "Can't print expression "; Text (text c);
         Text " as it has type ERROR"] in
      ret c
    else ret c.

Definition exitFuncCallStmt (c : Ctx) (f : funcCall) : Run Pass Ctx :=
    let* ty := lift (getattr (type (funcCall_ctx f))) in
    ret (set_type ty c).

Definition exitIntLiteral (c : Ctx) (INT : string) : Run Pass Ctx :=
    ret (set_type PrimitiveType.Int c).

(** [a and b], where [b] is only evaluated when [a] holds. *)
Definition and_then {S} (a : bool) (b : Run S bool) : Run S bool :=
    if a then b else ret false.

Definition type_is (e : expr) (ty : PrimitiveType.t) : Run Pass bool :=
    let* expr_type := lift (type_of e) in
    ret (bool_decide (expr_type = ty)).

Definition exitNeg (c : Ctx) (op : string) (e : expr) : Run Pass Ctx :=
    let* minus_int :=
      and_then (bool_decide (op = "-")) (type_is e PrimitiveType.Int) in
    if minus_int then ret (set_type PrimitiveType.Int c)
    else
      let* not_bool :=
        and_then (bool_decide (op = "!")) (type_is e PrimitiveType.Bool) in
      if not_bool then ret (set_type PrimitiveType.Bool c)
      else
        let c := set_type PrimitiveType.ERROR c in
        let* expr_type := lift (type_of e) in
        let* _ := log_add c INVALID_NEGATION
          [Text "Can't apply "; Text op; Text " to ";
           Text (PrimitiveType.name expr_type)] in
        ret c.

Definition exitParens (c : Ctx) (e : expr) : Run Pass Ctx :=
    let* ty := lift (type_of e) in
    ret (set_type ty c).

Definition binary_on_ints (c : Ctx) (op : string) (e0 e1 : expr)
      (result_type : PrimitiveType.t) : Run Pass Ctx :=
    let* int0 := type_is e0 PrimitiveType.Int in
    let* both := and_then int0 (type_is e1 PrimitiveType.Int) in
    if both then ret (set_type result_type c)
    else
      let c := set_type PrimitiveType.ERROR c in
      let* t0 := lift (type_of e0) in
      let* t1 := lift (type_of e1) in
      let* _ := log_add c INVALID_BINARY_OP
        [Text "Can't apply "; Text op; Text " to "; OfType t0;
         Text " and "; OfType t1] in
      ret c.

Definition exitMulDiv (c : Ctx) (op : string) (e0 e1 : expr) : Run Pass Ctx :=
    binary_on_ints c op e0 e1 PrimitiveType.Int.

Definition exitAddSub (c : Ctx) (op : string) (e0 e1 : expr) : Run Pass Ctx :=
    let* plus_strings :=
      and_then (bool_decide (op = "+"))
        (let* string0 := type_is e0 PrimitiveType.String in
         and_then string0 (type_is e1 PrimitiveType.String)) in
    if plus_strings then ret (set_type PrimitiveType.String c)
    else binary_on_ints c op e0 e1 PrimitiveType.Int.

Definition exitCompare (c : Ctx) (op : string) (e0 e1 : expr) : Run Pass Ctx :=
    binary_on_ints c op e0 e1 PrimitiveType.Bool.

Definition exitVariable (c : Ctx) : Run Pass Ctx :=
    let name := text c in
    let* _type := resolved_type name in
    if negb (PrimitiveType.truthy _type) then
      let c := set_type PrimitiveType.ERROR c in
      let* _ := log_add c UNDEFINED_NAME
        [Text "Name "; Text name; Text " is not declared"] in
      ret c
    else ret (set_type _type c).

Definition exitStringLiteral (c : Ctx) : Run Pass Ctx :=
    ret (set_type PrimitiveType.String c).

Definition exitBoolLiteral (c : Ctx) (BOOL : string) : Run Pass Ctx :=
    ret (set_type PrimitiveType.Bool c).

Definition exitFuncCallExpr (c : Ctx) (f : funcCall) : Run Pass Ctx :=
    let* ty := lift (getattr (type (funcCall_ctx f))) in
    ret (set_type ty c).

Definition listener : NimbleListener Pass := {|
    NimbleListener.enterScript := enterScript;
    NimbleListener.exitScript := pass2;
    NimbleListener.enterFuncDef := pass0;
    NimbleListener.enterFuncCall := pass0;
    NimbleListener.enterMain := enterMain;
    NimbleListener.exitMain := exitMain;
    NimbleListener.exitBody := pass2;
    NimbleListener.exitVarBlock := pass1;
    NimbleListener.exitVarDec := exitVarDec;
    NimbleListener.exitBlock := pass1;
    NimbleListener.exitAssignment := exitAssignment;
    NimbleListener.exitWhile := exitWhile;
    NimbleListener.exitIf := exitIf;
    NimbleListener.exitPrint := exitPrint;
    NimbleListener.exitReturn := exitReturn;
    NimbleListener.exitFuncCallStmt := exitFuncCallStmt;
    NimbleListener.exitNeg := exitNeg;
    NimbleListener.exitMulDiv := exitMulDiv;
    NimbleListener.exitAddSub := exitAddSub;
    NimbleListener.exitCompare := exitCompare;
    NimbleListener.exitParens := exitParens;
    NimbleListener.exitVariable := exitVariable;
    NimbleListener.exitIntLiteral := exitIntLiteral;
    NimbleListener.exitStringLiteral := exitStringLiteral;
    NimbleListener.exitBoolLiteral := exitBoolLiteral;
    NimbleListener.exitFuncCallExpr := exitFuncCallExpr
  |}.

End InferTypesAndCheckConstraints.

(** ** semantics/nimble_analyser.py *)

(** What a call of [do_semantic_analysis] can raise: a built-in exception
    escaping from a listener, or the analyser's own exception, which carries
    the error log. *)
Inductive Raised :=
| Builtin (e : PyError)
| NimbleSemanticErrors (error_log : ErrorLog).

(** [walker.walk(listener, tree)], started in the listener's initial state. *)
Definition run_walk {S} (L : NimbleListener S) (s : S) (tree : script)
    : Exc Raised (script * S) :=
  match ParseTreeWalker.walk L tree s with
  | inl e => inl (Builtin e)
  | inr r => inr r
  end.

(** The analysis starts with a fresh [ErrorLog] and no [Scope] object; it
    returns the annotated tree (together with the scopes the annotations
    refer to). *)
Definition do_semantic_analysis (tree : script) : Exc Raised (script * Store) :=
  let errors : ErrorLog := [] in
  match run_walk DefineScopesAndSymbols.listener
          (DefineScopesAndSymbols.init [] errors) tree with
  | inl e => inl e
  | inr (tree, s1) =>
      match run_walk InferTypesAndCheckConstraints.listener
              (InferTypesAndCheckConstraints.init (store s1) (error_log s1))
              tree with
      | inl e => inl e
      | inr (tree, s2) =>
          if decide (ErrorLogOps.total_entries (error_log s2) ≠ 0)
          then inl (NimbleSemanticErrors (error_log s2))
          else inr (tree, store s2)
      end
  end.

(** ** Python strings *)

Module PyStr.

Definition newline : string := String "010"%char "".
Definition quote : string := String "034"%char "".

(** A triple-quoted literal whose lines all end in a newline. *)
Definition lines (ls : list string) : string :=
    String.concat "" (map (fun l => l +:+ newline) ls).

(** [sep.join(parts)] *)
Definition join (sep : string) (parts : list string) : string :=
    String.concat sep parts.

(** [str(n)] for an integer. *)
Definition of_int (n : Z) : string := pretty n.

Fixpoint kwarg (name : string) (kwargs : list (string * string))
      : Exc PyError string :=
    match kwargs with
    | [] => inl KeyError
    | (k, v) :: kwargs => if decide (k = name) then inr v else kwarg name kwargs
    end.

(** The scanner of [str.format]: literal text, just after an opening brace,
    just after a closing brace in literal text, or inside a field name. *)
Inductive Scan :=
  | Literal
  | Opened
  | Closed
  | Field (name : string).

(** A replacement field: an empty name takes the next positional argument,
    any other name is a keyword argument. *)
Definition field_value (name : string) (auto : nat) (args : list string)
      (kwargs : list (string * string)) : Exc PyError (string * nat) :=
    if decide (name = "") then
      match args !! auto with
      | Some v => inr (v, S auto)
      | None => inl IndexError
      end
    else
      match kwarg name kwargs with
      | inr v => inr (v, auto)
      | inl e => inl e
      end.

Definition emit (c : ascii) (r : Exc PyError string) : Exc PyError string :=
    match r with inr s => inr (String c s) | inl e => inl e end.

Fixpoint format_scan (tpl : string) (st : Scan) (auto : nat)
      (args : list string) (kwargs : list (string * string))
      : Exc PyError string :=
    match tpl with
    | EmptyString =>
        match st with
        | Literal => inr ""
        | _ => inl ValueError
        end
    | String c rest =>
        let replace (name : string) :=
          match field_value name auto args kwargs with
          | inl e => inl e
          | inr (v, auto) =>
              match format_scan rest Literal auto args kwargs with
              | inr s => inr (v +:+ s)
              | inl e => inl e
              end
          end in
        match st with
        | Literal =>
            if decide (c = "{"%char) then format_scan rest Opened auto args kwargs
            else if decide (c = "}"%char) then
              format_scan rest Closed auto args kwargs
            else emit c (format_scan rest Literal auto args kwargs)
        | Opened =>
            if decide (c = "{"%char) then
              emit c (format_scan rest Literal auto args kwargs)
            else if decide (c = "}"%char) then replace ""
            else format_scan rest (Field (String c "")) auto args kwargs
        | Closed =>
            if decide (c = "}"%char) then
              emit c (format_scan rest Literal auto args kwargs)
            else inl ValueError
        | Field name =>
            if decide (c = "}"%char) then replace name
            else format_scan rest (Field (name +:+ String c "")) auto args kwargs
        end
    end.

(** [tpl.format(args, kwargs)], for templates whose fields are plain
    names or empty. *)
Definition format (tpl : string) (args : list string)
      (kwargs : list (string * string)) : Exc PyError string :=
    format_scan tpl Literal 0 args kwargs.

End PyStr.

(** ** templates.py *)

Module templates.

Definition script : string := PyStr.lines [
    ".data";
    "";
    "true_string: .asciiz " +:+ PyStr.quote +:+ "true" +:+ PyStr.quote;
    "false_string: .asciiz " +:+ PyStr.quote +:+ "false" +:+ PyStr.quote;
    "    ";
    "{string_literals}";
    "";
    ".text";
    "";
    "true_false_string:";
    "beq    $t0 $zero choose_false";
    "la     $a0 true_string";
    "j      end_true_false_string";
    "choose_false:";
    "la     $a0 false_string";
    "end_true_false_string:";
    "jr     $ra";
    "";
    "main: ";
    "";
    "{main}";
    "";
    "halt:";
    "";
    "li $v0 10";
    "syscall" ].

Definition add_sub : string := PyStr.lines [
    "{expr0}";
    "sw     $t0 0($sp) ";
    "addiu  $sp $sp -4 ";
    "{expr1}";
    "lw     $s1 4($sp) ";
    "{operation}    $t0 $s1 $t0 ";
    "addiu  $sp $sp 4" ].

Definition if_ : string := PyStr.lines [
    "{condition}";
    "li     $t1 0";
    "beq    $t0 $t1 {endif_label}";
    "{true_block}";
    "{endif_label}:" ].

Definition print_int_or_string : string := PyStr.lines [
    "{expr}";
    "move   $a0 $t0";
    "li     $v0 {service_code}";
    "syscall" ].

Definition print_bool : string := PyStr.lines [
    "{expr}";
    "jal    true_false_string";
    "li     $v0 4";
    "syscall" ].

End templates.

(** ** nimble2MIPS.py *)

Module MIPSGenerator.

(** The generator's fields.  [string_literals] is a dictionary whose items
    are read in insertion order. *)
Record Gen := mkGen {
    label_index : Z;
    string_literals : list (string * string);
    current_scope : option ScopeRef
  }.

(** [__init__(self)] *)
Definition init : Gen := mkGen (-1) [] None.

(** [d[key] = value] on a dictionary that keeps insertion order. *)
Fixpoint dict_set (key value : string) (d : list (string * string))
      : list (string * string) :=
    match d with
    | [] => [(key, value)]
    | (k, v) :: d =>
        if decide (k = key) then (k, value) :: d
        else (k, v) :: dict_set key value d
    end.

Definition unique_label (base : string) : Run Gen string :=
    let* s := get in
    let label_index := (label_index s + 1)%Z in
    let* _ := put (mkGen label_index (string_literals s) (current_scope s)) in
    ret (base +:+ "_" +:+ PyStr.of_int label_index).

Definition enterMain (c : Ctx) : Run Gen Ctx :=
    let* r := lift (getattr (scope c)) in
    let* _ := modify (fun s => mkGen (label_index s) (string_literals s) (Some r)) in
    ret c.

(** [node.mips] *)
Definition mips_of (c : Ctx) : Exc PyError string := getattr (mips c).

Fixpoint mips_of_statements (ss : list statement) : Exc PyError (list string) :=
    match ss with
    | [] => inr []
    | s :: ss =>
        match mips_of (statement_ctx s) with
        | inl e => inl e
        | inr code =>
            match mips_of_statements ss with
            | inl e => inl e
            | inr codes => inr (code :: codes)
            end
        end
    end.

Definition literal_line (item : string * string) : string :=
    let '(label, string) := item in label +:+ ": .asciiz " +:+ string.

Definition exitScript (c : Ctx) (fs : list funcDef) (m : main) : Run Gen Ctx :=
    let* s := get in
    let literals := PyStr.join PyStr.newline (map literal_line (string_literals s)) in
    let* main_code := lift (mips_of (main_ctx m)) in
    let* code := lift (PyStr.format templates.script []
                         [("string_literals", literals); ("main", main_code)]) in
    ret (set_mips code c).

Definition exitMain (c : Ctx) (b : body) : Run Gen Ctx :=
    let* code := lift (mips_of (body_ctx b)) in
    ret (set_mips code c).

Definition exitBlock (c : Ctx) (ss : list statement) : Run Gen Ctx :=
    let* codes := lift (mips_of_statements ss) in
    ret (set_mips (PyStr.join PyStr.newline codes) c).

Definition exitBoolLiteral (c : Ctx) (BOOL : string) : Run Gen Ctx :=
    let value := if decide (BOOL = "true") then 1%Z else 0%Z in
    let* code := lift (PyStr.format "li     $t0 {}" [PyStr.of_int value] []) in
    ret (set_mips code c).

Definition exitIntLiteral (c : Ctx) (INT : string) : Run Gen Ctx :=
    let* code := lift (PyStr.format "li     $t0 {}" [INT] []) in
    ret (set_mips code c).

Definition exitStringLiteral (c : Ctx) : Run Gen Ctx :=
    let* label := unique_label "string" in
    let* _ := modify (fun s => mkGen (label_index s)
                                 (dict_set label (text c) (string_literals s))
                                 (current_scope s)) in
    let* code := lift (PyStr.format "la     $t0 {}" [label] []) in
    ret (set_mips code c).

Definition exitPrint (c : Ctx) (e : expr) : Run Gen Ctx :=
    let* expr_type := lift (type_of e) in
    if decide (expr_type = PrimitiveType.Bool) then
      let* expr_code := lift (mips_of (expr_ctx e)) in
      let* code := lift (PyStr.format templates.print_bool []
                           [("expr", expr_code)]) in
      ret (set_mips code c)
    else
      let* expr_code := lift (mips_of (expr_ctx e)) in
      let* expr_type := lift (type_of e) in
      let service_code :=
        if decide (expr_type = PrimitiveType.Int) then 1%Z else 4%Z in
      let* code := lift (PyStr.format templates.print_int_or_string []
                           [("expr", expr_code);
                            ("service_code", PyStr.of_int service_code)]) in
      ret (set_mips code c).

Definition exitBody (c : Ctx) (vb : varBlock) (b : block) : Run Gen Ctx :=
    let* code := lift (mips_of (block_ctx b)) in
    ret (set_mips code c).

Definition exitAddSub (c : Ctx) (op : string) (e0 e1 : expr) : Run Gen Ctx :=
    let operation := if decide (op = "+") then "add" else "sub" in
    let* expr0 := lift (mips_of (expr_ctx e0)) in
    let* expr1 := lift (mips_of (expr_ctx e1)) in
    let* code := lift (PyStr.format templates.add_sub []
                         [("operation", operation);
                          ("expr0", expr0); ("expr1", expr1)]) in
    ret (set_mips code c).

Definition exitIf (c : Ctx) (e : expr) (b0 : block) (b1 : option block)
      : Run Gen Ctx :=
    let* condition := lift (mips_of (expr_ctx e)) in
    let* true_block := lift (mips_of (block_ctx b0)) in
    let* endif_label := unique_label "endif" in
    let* code := lift (PyStr.format templates.if_ []
                         [("condition", condition);
                          ("true_block", true_block);
                          ("endif_label", endif_label)]) in
    ret (set_mips code c).

(** The methods whose body is [pass]. *)
Definition exitVarBlock (c : Ctx) (ds : list varDec) : Run Gen Ctx := ret c.
Definition exitVarDec (c : Ctx) (ID TYPE : string) (e : option expr)
    : Run Gen Ctx := ret c.
Definition exitAssignment (c : Ctx) (ID : string) (e : expr)
    : Run Gen Ctx := ret c.
Definition exitWhile (c : Ctx) (e : expr) (b : block) : Run Gen Ctx := ret c.
Definition exitNeg (c : Ctx) (op : string) (e : expr) : Run Gen Ctx := ret c.
Definition exitParens (c : Ctx) (e : expr) : Run Gen Ctx := ret c.
Definition exitCompare (c : Ctx) (op : string) (e0 e1 : expr)
    : Run Gen Ctx := ret c.
Definition exitVariable (c : Ctx) : Run Gen Ctx := ret c.
Definition exitMulDiv (c : Ctx) (op : string) (e0 e1 : expr)
    : Run Gen Ctx := ret c.

Definition listener : NimbleListener Gen := {|
    NimbleListener.enterScript := pass0;
    NimbleListener.exitScript := exitScript;
    NimbleListener.enterFuncDef := pass0;
    NimbleListener.enterFuncCall := pass0;
    NimbleListener.enterMain := enterMain;
    NimbleListener.exitMain := exitMain;
    NimbleListener.exitBody := exitBody;
    NimbleListener.exitVarBlock := exitVarBlock;
    NimbleListener.exitVarDec := exitVarDec;
    NimbleListener.exitBlock := exitBlock;
    NimbleListener.exitAssignment := exitAssignment;
    NimbleListener.exitWhile := exitWhile;
    NimbleListener.exitIf := exitIf;
    NimbleListener.exitPrint := exitPrint;
    NimbleListener.exitReturn := pass1;
    NimbleListener.exitFuncCallStmt := pass1;
    NimbleListener.exitNeg := exitNeg;
    NimbleListener.exitMulDiv := exitMulDiv;
    NimbleListener.exitAddSub := exitAddSub;
    NimbleListener.exitCompare := exitCompare;
    NimbleListener.exitParens := exitParens;
    NimbleListener.exitVariable := exitVariable;
    NimbleListener.exitIntLiteral := exitIntLiteral;
    NimbleListener.exitStringLiteral := exitStringLiteral;
    NimbleListener.exitBoolLiteral := exitBoolLiteral;
    NimbleListener.exitFuncCallExpr := pass1
  |}.

(** [ParseTreeWalker().walk(MIPSGenerator(), tree)] followed by
    [tree.mips], as the driver does it. *)
Definition generate (tree : script) : Exc PyError string :=
    match ParseTreeWalker.walk listener tree init with
    | inl e => inl e
    | inr (tree, _) => mips_of (script_ctx tree)
    end.

End MIPSGenerator.

(** ** Vocabulary of the statements *)

(** The state after one entry was appended to the error log. *)
Definition logged (c : Ctx) (cat : Category) (msg : Message) (s : Pass) : Pass :=
  mkPass (store s) (ErrorLogOps.add (text c) cat msg (error_log s))
         (current_scope s).

(** Sample nodes: literals as the type checker annotates them. *)
Definition int_literal (digits : string) : expr :=
  IntLiteralContext (set_type PrimitiveType.Int (parsed digits)) digits.
Definition bool_literal (word : string) : expr :=
  BoolLiteralContext (set_type PrimitiveType.Bool (parsed word)) word.
Definition string_literal (quoted : string) : expr :=
  StringLiteralContext (set_type PrimitiveType.String (parsed quoted)).

(** A state of the type checker inside a main scope that declares nothing. *)
Definition in_empty_main : Pass :=
  mkPass [mkScope "$global" PrimitiveType.Void None ∅;
          mkScope "$main" PrimitiveType.Void (Some 0) ∅] [] (Some 1).

(** Sample trees. *)

Definition program (decls : list varDec) (stmts : list statement) : script :=
  ScriptContext (parsed "") []
    (MainContext (parsed "")
       (BodyContext (parsed "")
          (VarBlockContext (parsed "") decls)
          (BlockContext (parsed "") stmts))).

(** The program with an empty main. *)
Definition empty_program : script := program [] [].

(** [print 1] *)
Definition print_one : script :=
  program [] [PrintContext (parsed "print1")
                (IntLiteralContext (parsed "1") "1")].

(** [var x : Int  var x : String] *)
Definition twice_declared : script :=
  program [VarDecContext (parsed "varx:Int") "x" "Int" None;
           VarDecContext (parsed "varx:String") "x" "String" None] [].

(** A tree as a successful analysis would annotate it: the main node carries
    its scope, every expression its type. *)
Definition analysed (stmts : list statement) : script :=
  ScriptContext (set_scope 0 (parsed "")) []
    (MainContext (set_scope 1 (parsed ""))
       (BodyContext (parsed "")
          (VarBlockContext (parsed "") [])
          (BlockContext (parsed "") stmts))).

(** [print 2 * 3] *)
Definition print_product : script :=
  analysed [PrintContext (parsed "print2*3")
              (MulDivContext (set_type PrimitiveType.Int (parsed "2*3")) "*"
                 (int_literal "2") (int_literal "3"))].

(** [print 2 < 3] *)
Definition print_comparison : script :=
  analysed [PrintContext (parsed "print2<3")
              (CompareContext (set_type PrimitiveType.Bool (parsed "2<3")) "<"
                 (int_literal "2") (int_literal "3"))].

(** [print 2 + 3] *)
Definition print_sum : script :=
  analysed [PrintContext (parsed "print2+3")
              (AddSubContext (set_type PrimitiveType.Int (parsed "2+3")) "+"
                 (int_literal "2") (int_literal "3"))].

(** The literal [true] after its fragment was generated. *)
Definition generated_true : expr :=
  BoolLiteralContext
    (set_mips "li     $t0 1" (set_type PrimitiveType.Bool (parsed "true")))
    "true".

(** Every [enclosing_scope] link points to a scope that was created
    earlier, as it does when scopes are only ever created inside the
    current scope. *)
Definition links_backward (h : Store) : Prop :=
  forall r sc r',
    h !! r = Some sc -> enclosing_scope sc = Some r' -> r' < r.

(** The scopes of a semantic pass are well formed: links point backward and
    the current scope exists. *)
Definition scopes_wf (s : Pass) : Prop :=
  links_backward (store s)
  ∧ forall r, current_scope s = Some r -> r < List.length (store s).

(** [c in s] for a character and a string. *)
Fixpoint occurs (c : ascii) (s : string) : Prop :=
  match s with
  | EmptyString => False
  | String c' s => c = c' ∨ occurs c s
  end.




(** ** Invariants of a walk *)

(** [m] keeps [P]: when it is started where [P] holds and returns, [P] holds
    where it returns. *)
Definition preserves {S A} (P : S -> Prop) (m : Run S A) : Prop :=
  forall s a s', P s -> m s = inr (a, s') -> P s'.

(** Every method of the listener keeps [P]. *)
Record listener_preserves {S} (P : S -> Prop) (L : NimbleListener S) : Prop := {
  keeps_enterScript : forall c, preserves P (NimbleListener.enterScript L c);
  keeps_exitScript : forall c fs m,
    preserves P (NimbleListener.exitScript L c fs m);
  keeps_enterFuncDef : forall c, preserves P (NimbleListener.enterFuncDef L c);
  keeps_enterFuncCall : forall c, preserves P (NimbleListener.enterFuncCall L c);
  keeps_enterMain : forall c, preserves P (NimbleListener.enterMain L c);
  keeps_exitMain : forall c b, preserves P (NimbleListener.exitMain L c b);
  keeps_exitBody : forall c vb b, preserves P (NimbleListener.exitBody L c vb b);
  keeps_exitVarBlock : forall c ds,
    preserves P (NimbleListener.exitVarBlock L c ds);
  keeps_exitVarDec : forall c x ty e,
    preserves P (NimbleListener.exitVarDec L c x ty e);
  keeps_exitBlock : forall c ss, preserves P (NimbleListener.exitBlock L c ss);
  keeps_exitAssignment : forall c x e,
    preserves P (NimbleListener.exitAssignment L c x e);
  keeps_exitWhile : forall c e b, preserves P (NimbleListener.exitWhile L c e b);
  keeps_exitIf : forall c e b0 b1,
    preserves P (NimbleListener.exitIf L c e b0 b1);
  keeps_exitPrint : forall c e, preserves P (NimbleListener.exitPrint L c e);
  keeps_exitReturn : forall c e, preserves P (NimbleListener.exitReturn L c e);
  keeps_exitFuncCallStmt : forall c f,
    preserves P (NimbleListener.exitFuncCallStmt L c f);
  keeps_exitNeg : forall c op e, preserves P (NimbleListener.exitNeg L c op e);
  keeps_exitMulDiv : forall c op e0 e1,
    preserves P (NimbleListener.exitMulDiv L c op e0 e1);
  keeps_exitAddSub : forall c op e0 e1,
    preserves P (NimbleListener.exitAddSub L c op e0 e1);
  keeps_exitCompare : forall c op e0 e1,
    preserves P (NimbleListener.exitCompare L c op e0 e1);
  keeps_exitParens : forall c e, preserves P (NimbleListener.exitParens L c e);
  keeps_exitVariable : forall c, preserves P (NimbleListener.exitVariable L c);
  keeps_exitIntLiteral : forall c i,
    preserves P (NimbleListener.exitIntLiteral L c i);
  keeps_exitStringLiteral : forall c,
    preserves P (NimbleListener.exitStringLiteral L c);
  keeps_exitBoolLiteral : forall c b,
    preserves P (NimbleListener.exitBoolLiteral L c b);
  keeps_exitFuncCallExpr : forall c f,
    preserves P (NimbleListener.exitFuncCallExpr L c f)
}.

(** Induction on statements and blocks together: a block's statements and
    the blocks of a loop or a conditional are smaller. *)
Section StatementInduction.
Context (P : statement -> Prop) (Q : block -> Prop).
Context (HAssignment : forall c x e, P (AssignmentContext c x e)).
Context (HWhile : forall c e b, Q b -> P (WhileContext c e b)).
Context (HIf : forall c e b0 b1,
            Q b0 -> (forall b, b1 = Some b -> Q b) -> P (IfContext c e b0 b1)).
Context (HPrint : forall c e, P (PrintContext c e)).
Context (HReturn : forall c e, P (ReturnContext c e)).
Context (HFuncCallStmt : forall c f, P (FuncCallStmtContext c f)).
Context (HBlock : forall c ss, Forall P ss -> Q (BlockContext c ss)).

Fixpoint statement_induction (s : statement) : P s :=
  match s with
  | AssignmentContext c x e => HAssignment c x e
  | WhileContext c e b => HWhile c e b (block_induction b)
  | IfContext c e b0 b1 =>
      HIf c e b0 b1 (block_induction b0)
        (match b1 as o return forall b, o = Some b -> Q b with
         | Some b' => fun b Hb =>
             eq_ind b' Q (block_induction b') b (Some_inj _ _ Hb)
         | None => fun b Hb => False_ind _ (None_ne_Some _ Hb)
         end)
  | PrintContext c e => HPrint c e
  | ReturnContext c e => HReturn c e
  | FuncCallStmtContext c f => HFuncCallStmt c f
  end
with block_induction (b : block) : Q b :=
  match b with
  | BlockContext c ss =>
      HBlock c ss
        ((fix all (ss : list statement) : Forall P ss :=
            match ss with
            | [] => List.Forall_nil P
            | s :: ss => List.Forall_cons P s ss (statement_induction s) (all ss)
            end) ss)
  end.

End StatementInduction.

(** [m] returns in the state it was started in. *)
Definition stateless {S A} (m : Run S A) : Prop :=
  forall s a s', m s = inr (a, s') -> s' = s.








(** ** Vocabulary of the further properties *)

(** The listener as the walk of a main body uses it: the methods of the
    script node, of the main node and of a function definition are not
    called there. *)
Definition inside_main {S} (L : NimbleListener S) : NimbleListener S := {|
  NimbleListener.enterScript := pass0;
  NimbleListener.exitScript := pass2;
  NimbleListener.enterFuncDef := pass0;
  NimbleListener.enterFuncCall := NimbleListener.enterFuncCall L;
  NimbleListener.enterMain := pass0;
  NimbleListener.exitMain := pass1;
  NimbleListener.exitBody := NimbleListener.exitBody L;
  NimbleListener.exitVarBlock := NimbleListener.exitVarBlock L;
  NimbleListener.exitVarDec := NimbleListener.exitVarDec L;
  NimbleListener.exitBlock := NimbleListener.exitBlock L;
  NimbleListener.exitAssignment := NimbleListener.exitAssignment L;
  NimbleListener.exitWhile := NimbleListener.exitWhile L;
  NimbleListener.exitIf := NimbleListener.exitIf L;
  NimbleListener.exitPrint := NimbleListener.exitPrint L;
  NimbleListener.exitReturn := NimbleListener.exitReturn L;
  NimbleListener.exitFuncCallStmt := NimbleListener.exitFuncCallStmt L;
  NimbleListener.exitNeg := NimbleListener.exitNeg L;
  NimbleListener.exitMulDiv := NimbleListener.exitMulDiv L;
  NimbleListener.exitAddSub := NimbleListener.exitAddSub L;
  NimbleListener.exitCompare := NimbleListener.exitCompare L;
  NimbleListener.exitParens := NimbleListener.exitParens L;
  NimbleListener.exitVariable := NimbleListener.exitVariable L;
  NimbleListener.exitIntLiteral := NimbleListener.exitIntLiteral L;
  NimbleListener.exitStringLiteral := NimbleListener.exitStringLiteral L;
  NimbleListener.exitBoolLiteral := NimbleListener.exitBoolLiteral L;
  NimbleListener.exitFuncCallExpr := NimbleListener.exitFuncCallExpr L
|}.

(** [m] leaves the scopes and the current scope alone and at most appends
    entries to the error log. *)
Definition log_only {A} (m : Run Pass A) : Prop :=
  forall s a s',
    m s = inr (a, s') ->
    store s' = store s
    ∧ current_scope s' = current_scope s
    ∧ exists entries, error_log s' = error_log s ++ entries.

(** Every node of the expression has its [type]. *)
Fixpoint all_typed (e : expr) : Prop :=
  is_Some (type (expr_ctx e))
  ∧ match e with
    | NegContext _ _ e | ParensContext _ e => all_typed e
    | MulDivContext _ _ e0 e1 | AddSubContext _ _ e0 e1
    | CompareContext _ _ e0 e1 => all_typed e0 ∧ all_typed e1
    | _ => True
    end.


Definition funcDef_ctx (f : funcDef) : Ctx :=
  match f with FuncDefContext c => c end.




(** The entry that the first pass logs for a function definition. *)
Definition unsupported_definition (f : funcDef) : ErrorEntry :=
  mkEntry (text (funcDef_ctx f)) UNSUPPORTED_LANGUAGE_FEATURE
    [Text "this implementation does not support function definitions"].

(** The categories of the first pass. *)
Definition first_pass_category (entry : ErrorEntry) : Prop :=
  category entry = UNSUPPORTED_LANGUAGE_FEATURE
  ∨ category entry = DUPLICATE_NAME.

(** [1 + true], as the parser delivers it. *)
Definition one_plus_true : expr :=
  AddSubContext (parsed "1+true") "+"
    (IntLiteralContext (parsed "1") "1")
    (BoolLiteralContext (parsed "true") "true").




(** A call [f()] as the parser delivers it, as an expression. *)
Definition call_expression : expr :=
  FuncCallExprContext (parsed "f()") (FuncCallContext (parsed "f()")).

(** A variable reference to which the type checker gave the type ERROR. *)
Definition error_typed : expr :=
  VariableContext (set_type PrimitiveType.ERROR (parsed "x")).

(** A block after its fragment was generated. *)
Definition generated_block (code : string) : block :=
  BlockContext (set_mips code (parsed "")) [].





(** A statement of a kind for which the generator has no code, as the parser
    delivers it. *)
Definition without_code (st : statement) : Prop :=
  match st with
  | AssignmentContext c _ _ | WhileContext c _ _ | ReturnContext c _
  | FuncCallStmtContext c _ => mips c = None
  | _ => False
  end.

(** An expression of a kind for which the generator has no code, as the
    parser delivers it. *)
Definition expression_without_code (e : expr) : Prop :=
  match e with
  | NegContext c _ _ | ParensContext c _ | VariableContext c
  | MulDivContext c _ _ _ | CompareContext c _ _ _
  | FuncCallExprContext c _ => mips c = None
  | _ => False
  end.

(** [x = 5], as the parser delivers it. *)
Definition assign_five : statement :=
  AssignmentContext (parsed "x=5") "x" (IntLiteralContext (parsed "5") "5").




(** The literal [2] after its fragment was generated. *)
Definition generated_two : expr :=
  IntLiteralContext
    (set_mips "li     $t0 2" (set_type PrimitiveType.Int (parsed "2"))) "2".








(** ** batch_compile.py *)

Module batch_compile.

(** What [parse] does with one source file.  The parser is not among the
    sources, so its outcome for each file name is given: a tree, a
    [FileNotFoundError], or [SyntaxErrors] with the text it prints as. *)
Inductive Parse :=
| Parsed (tree : script)
| RaisesFileNotFoundError
| RaisesSyntaxErrors (se : string).

(** The values that the variable [output] takes: a text, the text of the
    semantic errors of a file (how an [ErrorLog] prints is decided by the
    errorlog module, so the log itself is kept), or the exception object
    [fnf]. *)
Inductive Output :=
| Text (s : string)
| SemanticErrorsIn (name : string) (log : ErrorLog)
| ExceptionObject.

(** What one run does to the world, in order: a [print] to [sys.stderr], or
    the content that a file of the output directory is left with. *)
Inductive Effect :=
| PrintToStderr (output : Output)
| FileWritten (filename : string) (content : Output).

(** An exception that leaves [compile_nimble_source_files]. *)
Inductive Escapes :=
| Uncaught (e : PyError)
| TypeError.

(** [name.split(".")[0]] *)
Fixpoint before_first_dot (name : string) : string :=
  match name with
  | EmptyString => EmptyString
  | String c rest =>
      if decide (c = "."%char) then EmptyString
      else String c (before_first_dot rest)
  end.

(** The file name that is joined to the output directory. *)
Definition mips_filename (name : string) : string :=
  before_first_dot name +:+ ".asm".

(** The [try] statement without its [finally] clause: the values of [output]
    and [error_found] that it leaves, and the exception that no [except]
    clause has caught. *)
Definition try_compile (name : string) (parse : Parse)
    : Output * bool * option PyError :=
  match parse with
  | RaisesFileNotFoundError => (ExceptionObject, true, None)
  | RaisesSyntaxErrors se =>
      (Text (PyStr.newline +:+ "Syntax error(s) in " +:+ name
             +:+ PyStr.newline +:+ se), true, None)
  | Parsed tree =>
      match do_semantic_analysis tree with
      | inl (NimbleSemanticErrors log) => (SemanticErrorsIn name log, true, None)
      | inl (Builtin e) => (Text "", false, Some e)
      | inr (tree, _) =>
          match ParseTreeWalker.walk MIPSGenerator.listener tree
                  MIPSGenerator.init with
          | inl e => (Text "", false, Some e)
          | inr (tree, _) =>
              match MIPSGenerator.mips_of (script_ctx tree) with
              | inl e => (Text "", false, Some e)
              | inr code => (Text code, false, None)
              end
          end
      end
  end.

(** The [finally] clause: the message goes to [sys.stderr] if an error was
    found, the file is opened for writing, and [output] is written to it;
    writing a value that is no text raises [TypeError] and leaves the file
    empty.  An exception that the [try] statement has not caught goes on
    after the clause. *)
Definition finally (name : string) (result : Output * bool * option PyError)
    : list Effect * option Escapes :=
  let '(output, error_found, pending) := result in
  let printed := if error_found then [PrintToStderr output] else [] in
  match output with
  | ExceptionObject =>
      (printed ++ [FileWritten (mips_filename name) (Text "")], Some TypeError)
  | _ =>
      (printed ++ [FileWritten (mips_filename name) output],
       match pending with
       | Some e => Some (Uncaught e)
       | None => None
       end)
  end.

(** The body of the loop, for one file name. *)
Definition compile_file (name : string) (parse : Parse)
    : list Effect * option Escapes :=
  finally name (try_compile name parse).

(** The loop over the names that [os.listdir] returns: an exception that
    leaves the body leaves the loop. *)
Fixpoint compile_nimble_source_files (parse : string -> Parse)
    (source_files : list string) : list Effect * option Escapes :=
  match source_files with
  | [] => ([], None)
  | name :: source_files =>
      match compile_file name (parse name) with
      | (effects, Some e) => (effects, Some e)
      | (effects, None) =>
          let '(later, escaped) :=
            compile_nimble_source_files parse source_files in
          (effects ++ later, escaped)
      end
  end.

End batch_compile.

(** What the driver does with a file in which the parser finds syntax
    errors. *)
Definition syntax_errors_reported (name se : string)
    : list batch_compile.Effect :=
  let message :=
    batch_compile.Text (PyStr.newline +:+ "Syntax error(s) in " +:+ name
                        +:+ PyStr.newline +:+ se) in
  [batch_compile.PrintToStderr message;
   batch_compile.FileWritten (batch_compile.mips_filename name) message].

(** A parser that finds a syntax error in [broken.nim] and none in any other
    file, which it reads as [print 1]. *)
Definition sample_parse (name : string) : batch_compile.Parse :=
  if decide (name = "broken.nim")
  then batch_compile.RaisesSyntaxErrors "line 1:0 mismatched input"
  else batch_compile.Parsed print_one.

(** * Properties of the type checker *)

Section TypeChecker.
Import InferTypesAndCheckConstraints.

Local Ltac run :=
  unfold exitMulDiv, exitCompare, exitAddSub, exitNeg, binary_on_ints,
    type_is, and_then, log_add, logged, bind, lift, ret, modify.

(** C4: for operands of primitive types [t0] and [t1], [+] gives String on
    (String, String), every arithmetic operator gives Int on (Int, Int), a
    comparison gives Bool on (Int, Int); every other combination gives the
    node type ERROR and appends exactly one INVALID_BINARY_OP entry. *)
Theorem binary_operator_type_matrix
    (c : Ctx) (op : string) (e0 e1 : expr) (t0 t1 : PrimitiveType.t) (s : Pass) :
  type_of e0 = inr t0 ->
  type_of e1 = inr t1 ->
  let both_int := t0 = PrimitiveType.Int ∧ t1 = PrimitiveType.Int in
  let both_string := t0 = PrimitiveType.String ∧ t1 = PrimitiveType.String in
  let failed : Exc PyError (Ctx * Pass) :=
    inr (set_type PrimitiveType.ERROR c,
         logged c INVALID_BINARY_OP
           [Text "Can't apply "; Text op; Text " to "; OfType t0;
            Text " and "; OfType t1] s) in
  exitAddSub c op e0 e1 s =
    (if decide (op = "+" ∧ both_string)
     then inr (set_type PrimitiveType.String c, s)
     else if decide both_int then inr (set_type PrimitiveType.Int c, s)
     else failed)
  ∧ exitMulDiv c op e0 e1 s =
    (if decide both_int then inr (set_type PrimitiveType.Int c, s) else failed)
  ∧ exitCompare c op e0 e1 s =
    (if decide both_int then inr (set_type PrimitiveType.Bool c, s) else failed).
Proof.
  intros H0 H1; cbv zeta; run; rewrite H0, H1.
  destruct (decide (op = "+")) as [->|Hop].
  - destruct t0, t1; repeat split; reflexivity.
  - rewrite bool_decide_eq_false_2 by exact Hop.
    rewrite decide_False by (intros [? _]; contradiction).
    destruct t0, t1; repeat split; reflexivity.
Qed.

Lemma binary_operator_type_matrix_witness :
  type_of (int_literal "1") = inr PrimitiveType.Int
  ∧ type_of (bool_literal "true") = inr PrimitiveType.Bool
  ∧ exitAddSub (parsed "1+true") "+" (int_literal "1") (bool_literal "true")
      in_empty_main
    = inr (set_type PrimitiveType.ERROR (parsed "1+true"),
           logged (parsed "1+true") INVALID_BINARY_OP
             [Text "Can't apply "; Text "+"; Text " to ";
              OfType PrimitiveType.Int; Text " and ";
              OfType PrimitiveType.Bool] in_empty_main).
Proof.
  split; [reflexivity|]. split; [reflexivity|].
  exact (proj1 (binary_operator_type_matrix (parsed "1+true") "+"
                  (int_literal "1") (bool_literal "true")
                  PrimitiveType.Int PrimitiveType.Bool in_empty_main
                  eq_refl eq_refl)).
Defined.

(** C6: [-] on an Int operand gives Int, [!] on a Bool operand gives Bool;
    every other operator and operand type gives the node type ERROR and
    appends exactly one INVALID_NEGATION entry. *)
Theorem negation_type_rule
    (c : Ctx) (op : string) (e : expr) (t : PrimitiveType.t) (s : Pass) :
  type_of e = inr t ->
  exitNeg c op e s =
    if decide (op = "-" ∧ t = PrimitiveType.Int)
    then inr (set_type PrimitiveType.Int c, s)
    else if decide (op = "!" ∧ t = PrimitiveType.Bool)
    then inr (set_type PrimitiveType.Bool c, s)
    else inr (set_type PrimitiveType.ERROR c,
              logged c INVALID_NEGATION
                [Text "Can't apply "; Text op; Text " to ";
                 Text (PrimitiveType.name t)] s).
Proof.
  intros H; run; rewrite H.
  destruct (decide (op = "-")) as [->|Hm].
  - destruct t; reflexivity.
  - rewrite (bool_decide_eq_false_2 _ Hm).
    rewrite decide_False by (intros [? _]; contradiction).
    destruct (decide (op = "!")) as [->|Hn].
    + destruct t; reflexivity.
    + rewrite (bool_decide_eq_false_2 _ Hn).
      rewrite decide_False by (intros [? _]; contradiction).
      reflexivity.
Qed.

Lemma negation_type_rule_witness :
  type_of (string_literal "'a'") = inr PrimitiveType.String
  ∧ exitNeg (parsed "-'a'") "-" (string_literal "'a'") in_empty_main
    = inr (set_type PrimitiveType.ERROR (parsed "-'a'"),
           logged (parsed "-'a'") INVALID_NEGATION
             [Text "Can't apply "; Text "-"; Text " to "; Text "String"]
             in_empty_main).
Proof.
  split; [reflexivity|].
  exact (negation_type_rule (parsed "-'a'") "-" (string_literal "'a'")
           PrimitiveType.String in_empty_main eq_refl).
Defined.

End TypeChecker.

Section NameResolution.
Import InferTypesAndCheckConstraints.

Local Ltac run :=
  unfold exitVariable, exitAssignment, resolved_type, the_current_scope,
    log_invalid_assign, log_add, logged, bind, lift, ret, get, put, modify.

(** C2: on a variable reference whose name resolves nowhere in the scope
    chain the handler raises AttributeError: no type is assigned and no
    UNDEFINED_NAME entry is appended. *)
Theorem exitVariable_unresolved_raises (c : Ctx) (s : Pass) (r : ScopeRef) :
  current_scope s = Some r ->
  ScopeOps.resolve r (text c) (store s) = inr None ->
  exitVariable c s = inl AttributeError.
Proof. intros Hr Hn; run; rewrite Hr; simpl; rewrite Hn; reflexivity. Qed.

Lemma exitVariable_unresolved_raises_witness :
  current_scope in_empty_main = Some 1
  ∧ ScopeOps.resolve 1 (text (parsed "x")) (store in_empty_main) = inr None
  ∧ exitVariable (parsed "x") in_empty_main = inl AttributeError.
Proof.
  split; [reflexivity|]. split; [reflexivity|].
  exact (exitVariable_unresolved_raises (parsed "x") in_empty_main 1
           eq_refl eq_refl).
Defined.

(** A name that resolves gives the node the type of the resolved symbol. *)
Lemma exitVariable_resolved (c : Ctx) (s : Pass) (r : ScopeRef) (sym : Symbol) :
  current_scope s = Some r ->
  ScopeOps.resolve r (text c) (store s) = inr (Some sym) ->
  exitVariable c s = inr (set_type (sym_type sym) c, s).
Proof. intros Hr Hn; run; rewrite Hr; simpl; rewrite Hn; reflexivity. Qed.

(** C3: on an assignment whose target resolves nowhere in the scope chain
    the handler raises AttributeError: no UNDEFINED_NAME entry is appended. *)
Theorem exitAssignment_unresolved_raises
    (c : Ctx) (ID : string) (e : expr) (s : Pass) (r : ScopeRef) :
  current_scope s = Some r ->
  ScopeOps.resolve r ID (store s) = inr None ->
  exitAssignment c ID e s = inl AttributeError.
Proof. intros Hr Hn; run; rewrite Hr; simpl; rewrite Hn; reflexivity. Qed.

Lemma exitAssignment_unresolved_raises_witness :
  current_scope in_empty_main = Some 1
  ∧ ScopeOps.resolve 1 "x" (store in_empty_main) = inr None
  ∧ exitAssignment (parsed "x=5") "x" (int_literal "5") in_empty_main
    = inl AttributeError.
Proof.
  split; [reflexivity|]. split; [reflexivity|].
  exact (exitAssignment_unresolved_raises (parsed "x=5") "x" (int_literal "5")
           in_empty_main 1 eq_refl eq_refl).
Defined.

(** A target that resolves is compared with the type of the right-hand side:
    a different type appends one ASSIGN_TO_WRONG_TYPE entry, the same type
    appends nothing. *)
Lemma exitAssignment_resolved (c : Ctx) (ID : string) (e : expr) (s : Pass)
    (r : ScopeRef) (sym : Symbol) (t : PrimitiveType.t) :
  current_scope s = Some r ->
  ScopeOps.resolve r ID (store s) = inr (Some sym) ->
  type_of e = inr t ->
  exitAssignment c ID e s =
    if decide (sym_type sym = t) then inr (c, s)
    else inr (c, logged c ASSIGN_TO_WRONG_TYPE
                   [Text "Can't assign "; OfType t;
                    Text " expression to variable "; Text ID;
                    Text " of type "; OfType (sym_type sym)] s).
Proof.
  intros Hr Hn Ht; run; rewrite Hr; simpl; rewrite Hn; simpl; rewrite Ht.
  destruct (decide (sym_type sym = t)) as [Heq|Hne].
  - rewrite decide_False by (intros ?; contradiction). reflexivity.
  - rewrite decide_True by assumption. rewrite <- Hr. reflexivity.
Qed.

End NameResolution.

(** * Properties of the analysis as a whole *)

(** C1: [do_semantic_analysis] never returns the tree and never raises
    [NimbleSemanticErrors]: when the first pass completes, the second pass
    stops at the script node with AttributeError, which escapes.  This is so
    for the empty program and for [print 1], which have no error, and for a
    program whose first pass logged a DUPLICATE_NAME entry. *)
Theorem do_semantic_analysis_raises_builtin :
  (forall tree : script,
     match ParseTreeWalker.walk DefineScopesAndSymbols.listener tree
             (DefineScopesAndSymbols.init [] []) with
     | inl e => do_semantic_analysis tree = inl (Builtin e)
     | inr _ => do_semantic_analysis tree = inl (Builtin AttributeError)
     end)
  ∧ do_semantic_analysis empty_program = inl (Builtin AttributeError)
  ∧ do_semantic_analysis print_one = inl (Builtin AttributeError)
  ∧ do_semantic_analysis twice_declared = inl (Builtin AttributeError).
Proof.
  split; [|split; [|split]; reflexivity].
  intros tree. unfold do_semantic_analysis, run_walk.
  destruct (ParseTreeWalker.walk DefineScopesAndSymbols.listener tree _)
    as [e|[[c fs m] s1]]; reflexivity.
Qed.

(** The first pass on its own completes on both sample programs; on the
    second it logs one entry. *)
Lemma first_pass_completes :
  (exists t s, ParseTreeWalker.walk DefineScopesAndSymbols.listener empty_program
                 (DefineScopesAndSymbols.init [] []) = inr (t, s)
               ∧ ErrorLogOps.total_entries (error_log s) = 0)
  ∧ (exists t s, ParseTreeWalker.walk DefineScopesAndSymbols.listener
                   twice_declared (DefineScopesAndSymbols.init [] []) = inr (t, s)
                 ∧ ErrorLogOps.total_entries (error_log s) = 1).
Proof. split; eexists _, _; (split; [reflexivity|]); reflexivity. Qed.

(** * Properties of the scope binder *)

Section ScopeBinder.
Import DefineScopesAndSymbols.


Lemma resolve_fuel_returns (h : Store) (name : string) (fuel : nat)
    (r : ScopeRef) :
  links_backward h -> r < List.length h -> r <= fuel ->
  exists found, ScopeOps.resolve_fuel fuel r name h = inr found.
Proof.
  intros Hback. revert r.
  induction fuel as [|fuel IH]; intros r Hr Hfuel;
    destruct (lookup_lt_is_Some_2 h r Hr) as [sc Hsc];
    cbn [ScopeOps.resolve_fuel]; rewrite Hsc;
    destruct (symbols sc !! name) as [sym|]; try (eexists; reflexivity);
    destruct (enclosing_scope sc) as [r'|] eqn:Henc;
    try (eexists; reflexivity);
    pose proof (Hback r sc r' Hsc Henc) as Hlt.
  - lia.
  - apply IH; lia.
Qed.

(** Where the links point backward, [resolve] returns: the bound on the
    number of links is never reached. *)
Lemma resolve_returns (h : Store) (r : ScopeRef) (name : string) :
  links_backward h -> r < List.length h ->
  exists found, ScopeOps.resolve r name h = inr found.
Proof.
  intros Hback Hr. apply resolve_fuel_returns; [exact Hback|exact Hr|lia].
Qed.


End ScopeBinder.


(** * Properties of the code generator *)

Section CodeGenerator.
Import MIPSGenerator.

(** The fragment of an additive node: the left operand, a push of the
    accumulator, the right operand, a pop into [$s1], and the operation. *)
Lemma exitAddSub_fragment (c : Ctx) (op : string) (e0 e1 : expr)
    (code0 code1 : string) (s : Gen) :
  mips_of (expr_ctx e0) = inr code0 ->
  mips_of (expr_ctx e1) = inr code1 ->
  exitAddSub c op e0 e1 s =
    inr (set_mips
           (code0 +:+ PyStr.newline +:+
            PyStr.lines ["sw     $t0 0($sp) "; "addiu  $sp $sp -4 "] +:+
            code1 +:+ PyStr.newline +:+
            PyStr.lines ["lw     $s1 4($sp) ";
                         (if decide (op = "+") then "add" else "sub")
                           +:+ "    $t0 $s1 $t0 ";
                         "addiu  $sp $sp 4"]) c, s).
Proof.
  intros H0 H1. unfold exitAddSub, bind, lift, ret. rewrite H0, H1.
  destruct (decide (op = "+")); reflexivity.
Qed.



(** A print statement whose operand has no fragment cannot be generated. *)
Lemma print_without_fragment (cp : Ctx) (e e' : expr) (s s' : Gen) :
  ParseTreeWalker.walk_expr listener e s = inr (e', s') ->
  mips (expr_ctx e') = None ->
  exists err, ParseTreeWalker.walk_statement listener (PrintContext cp e) s
              = inl err.
Proof.
  intros He Hm. cbn [ParseTreeWalker.walk_statement]. unfold bind at 1.
  rewrite He. unfold bind, NimbleListener.exitPrint, listener, exitPrint, bind,
    lift, mips_of.
  rewrite Hm. destruct (type_of e') as [err|t]; [eexists; reflexivity|].
  destruct (decide (t = PrimitiveType.Bool)); eexists; reflexivity.
Qed.

(** C9: the generator produces no fragment for a multiplicative or a
    comparison node: both handlers leave the node and the generator as they
    are, so the walk of a print statement over such a node stops with an
    exception, as the generation of [print 2 * 3] and of [print 2 < 3] does
    with AttributeError.  The additive node of [print 2 + 3] does get its
    fragment. *)
Theorem product_and_comparison_have_no_fragment :
  (forall (c : Ctx) (op : string) (e0 e1 : expr) (s : Gen),
     exitMulDiv c op e0 e1 s = inr (c, s)
     ∧ exitCompare c op e0 e1 s = inr (c, s))
  ∧ (forall (cp : Ctx) (txt : string) (sc : option ScopeRef)
            (ty : option PrimitiveType.t) (op : string) (e0 e1 : expr)
            (s : Gen),
       let c := mkCtx txt sc ty None in
       (exists err,
          ParseTreeWalker.walk_statement listener
            (PrintContext cp (MulDivContext c op e0 e1)) s = inl err)
       ∧ (exists err,
            ParseTreeWalker.walk_statement listener
              (PrintContext cp (CompareContext c op e0 e1)) s = inl err))
  ∧ generate print_product = inl AttributeError
  ∧ generate print_comparison = inl AttributeError
  ∧ exists code, generate print_sum = inr code.
Proof.
  split; [intros; split; reflexivity|].
  split; [|split; [reflexivity|split; [reflexivity|]]].
  - intros cp txt sc ty op e0 e1 s c.
    assert (Hwalk : forall mk : Ctx -> expr,
              (mk = (fun c => MulDivContext c op e0 e1)
               ∨ mk = (fun c => CompareContext c op e0 e1)) ->
              exists err, ParseTreeWalker.walk_statement listener
                            (PrintContext cp (mk c)) s = inl err).
    { intros mk Hmk.
      destruct (ParseTreeWalker.walk_expr listener (mk c) s)
        as [err|[e' s']] eqn:He.
      - exists err. cbn [ParseTreeWalker.walk_statement]. unfold bind at 1.
        rewrite He. reflexivity.
      - apply (print_without_fragment cp (mk c) e' s s' He).
        destruct Hmk as [-> | ->]; cbn [ParseTreeWalker.walk_expr] in He;
          unfold bind in He;
          destruct (ParseTreeWalker.walk_expr listener e0 s) as [|[e0' s0]];
          try discriminate;
          destruct (ParseTreeWalker.walk_expr listener e1 s0) as [|[e1' s1]];
          try discriminate;
          injection He as <- _; reflexivity. }
    split; [apply (Hwalk (fun c => MulDivContext c op e0 e1))
           |apply (Hwalk (fun c => CompareContext c op e0 e1))]; auto.
  - eexists. vm_compute. reflexivity.
Qed.

End CodeGenerator.

(** * Labels *)

Section Labels.
Import MIPSGenerator.








Lemma append_String (a : ascii) (s1 s2 : string) :
  String a s1 +:+ s2 = String a (s1 +:+ s2).
Proof. reflexivity. Qed.



Lemma unique_label_run (base : string) (s : Gen) :
  unique_label base s =
    inr (base +:+ "_" +:+ PyStr.of_int (label_index s + 1),
         mkGen (label_index s + 1) (string_literals s) (current_scope s)).
Proof. reflexivity. Qed.








End Labels.

(** * Invariants of a walk *)

Section WalkInvariant.
Context {S : Type} (P : S -> Prop) (L : NimbleListener S).
Context (HL : listener_preserves P L).

Lemma preserves_ret {A} (a : A) : preserves P (ret a).
Proof. intros s a' s' HP [= _ <-]. exact HP. Qed.

Lemma preserves_bind {A B} (m : Run S A) (k : A -> Run S B) :
  preserves P m -> (forall a, preserves P (k a)) -> preserves P (bind m k).
Proof.
  intros Hm Hk s b s' HP. unfold bind.
  destruct (m s) as [e|[a s1]] eqn:Hms; [discriminate|].
  intros Hks. exact (Hk a s1 b s' (Hm s a s1 HP Hms) Hks).
Qed.

Local Ltac keep :=
  repeat first
    [ apply preserves_ret
    | apply preserves_bind; [|intro]
    | assumption
    | match goal with H : forall _, _ |- _ => apply H end ].

Lemma walk_funcCall_preserves (f : funcCall) :
  preserves P (ParseTreeWalker.walk_funcCall L f).
Proof. destruct HL. destruct f. simpl. keep. Qed.

Lemma walk_expr_preserves (e : expr) :
  preserves P (ParseTreeWalker.walk_expr L e).
Proof.
  pose proof walk_funcCall_preserves as Hf.
  destruct HL. induction e; simpl; keep.
Qed.

Lemma walk_opt_preserves {A} (w : A -> Run S A) (o : option A) :
  (forall a, o = Some a -> preserves P (w a)) ->
  preserves P (ParseTreeWalker.walk_opt w o).
Proof.
  intros Hw. destruct o as [a|]; simpl; [|apply preserves_ret].
  apply preserves_bind; [apply Hw; reflexivity|intro; apply preserves_ret].
Qed.

Lemma walk_list_preserves {A} (w : A -> Run S A) (l : list A) :
  Forall (fun a => preserves P (w a)) l ->
  preserves P (ParseTreeWalker.walk_list w l).
Proof.
  induction 1 as [|a l Ha _ IH]; simpl; [apply preserves_ret|].
  apply preserves_bind; [exact Ha|intro].
  apply preserves_bind; [exact IH|intro; apply preserves_ret].
Qed.

Lemma walk_statement_preserves (s : statement) :
  preserves P (ParseTreeWalker.walk_statement L s).
Proof.
  pose proof walk_funcCall_preserves as Hf.
  pose proof walk_expr_preserves as He.
  revert s.
  apply (statement_induction
           (fun s => preserves P (ParseTreeWalker.walk_statement L s))
           (fun b => preserves P (ParseTreeWalker.walk_block L b)));
    destruct HL.
  - intros c x e. simpl. keep.
  - intros c e b Hb. simpl. keep.
  - intros c e b0 b1 Hb0 Hb1. simpl.
    apply preserves_bind; [apply He|intro].
    apply preserves_bind; [exact Hb0|intro].
    apply preserves_bind; [apply walk_opt_preserves; exact Hb1|intro].
    keep.
  - intros c e. simpl. keep.
  - intros c e. simpl.
    apply preserves_bind; [apply walk_opt_preserves; intros; apply He|intro].
    keep.
  - intros c f. simpl. keep.
  - intros c ss Hss. simpl.
    apply preserves_bind; [apply walk_list_preserves; exact Hss|intro].
    keep.
Qed.

Lemma walk_block_preserves (b : block) :
  preserves P (ParseTreeWalker.walk_block L b).
Proof.
  destruct b as [c ss]. simpl.
  apply preserves_bind.
  - apply walk_list_preserves. apply Forall_forall. intros s _.
    apply walk_statement_preserves.
  - intro. apply preserves_bind; [apply HL|intro; apply preserves_ret].
Qed.

(** A property that every method of the listener keeps is kept by the walk
    of a whole tree. *)
Theorem walk_preserves (tree : script) :
  preserves P (ParseTreeWalker.walk L tree).
Proof.
  pose proof walk_expr_preserves as He.
  pose proof walk_block_preserves as Hb.
  destruct tree as [c fs [cm [cb [cv ds] bl]]].
  unfold ParseTreeWalker.walk, ParseTreeWalker.walk_main,
    ParseTreeWalker.walk_body, ParseTreeWalker.walk_varBlock.
  apply preserves_bind; [apply HL|intro].
  apply preserves_bind.
  { apply walk_list_preserves. apply Forall_forall. intros [cf] _. simpl.
    apply preserves_bind; [apply HL|intro; apply preserves_ret]. }
  intro. apply preserves_bind; [|intro; apply preserves_bind;
                                  [apply HL|intro; apply preserves_ret]].
  apply preserves_bind; [apply HL|intro].
  apply preserves_bind; [|intro; apply preserves_bind;
                            [apply HL|intro; apply preserves_ret]].
  apply preserves_bind; [|intro; apply preserves_bind;
                            [apply Hb|intro; apply preserves_bind;
                               [apply HL|intro; apply preserves_ret]]].
  apply preserves_bind; [|intro; apply preserves_bind;
                            [apply HL|intro; apply preserves_ret]].
  apply walk_list_preserves. apply Forall_forall. intros [cd x ty e] _.
  unfold ParseTreeWalker.walk_varDec.
  apply preserves_bind; [apply walk_opt_preserves; intros; apply He|intro].
  apply preserves_bind; [apply HL|intro; apply preserves_ret].
Qed.

End WalkInvariant.

(** * Invariants of the code generator *)

Section GeneratorInvariants.
Import MIPSGenerator.

Lemma stateless_ret {S A} (a : A) : stateless (@ret S A a).
Proof. intros s a' s' [= _ <-]. reflexivity. Qed.




Lemma stateless_preserves {S A} (P : S -> Prop) (m : Run S A) :
  stateless m -> preserves P m.
Proof. intros Hm s a s' HP Hms. rewrite (Hm s a s' Hms). exact HP. Qed.



Lemma append_empty_r (s : string) : s +:+ "" = s.
Proof. induction s as [|a s IH]; [reflexivity|]. rewrite append_String, IH. reflexivity. Qed.

















End GeneratorInvariants.

(** * Uniqueness of labels *)

Section UniqueLabels.
Import MIPSGenerator.



End UniqueLabels.

(** * The scopes that the first pass builds *)

Section ScopesOfFirstPass.
Import DefineScopesAndSymbols.

Lemma links_backward_new (h : Store) (name : string) (rt : PrimitiveType.t)
    (enclosing : option ScopeRef) :
  links_backward h ->
  (forall r, enclosing = Some r -> r < List.length h) ->
  links_backward (h ++ [mkScope name rt enclosing ∅]).
Proof.
  intros Hh Henc r sc r' Hsc Hlink.
  destruct (decide (r < List.length h)) as [Hlt|Hge].
  - rewrite lookup_app_l in Hsc by exact Hlt. exact (Hh r sc r' Hsc Hlink).
  - rewrite lookup_app_r in Hsc by lia.
    destruct (r - List.length h) as [|k] eqn:Hk; [|destruct k; discriminate].
    injection Hsc as <-. simpl in Hlink.
    pose proof (Henc r' Hlink). lia.
Qed.

Lemma links_backward_define (h h' : Store) (r : ScopeRef) (name : string)
    (ty : PrimitiveType.t) :
  links_backward h ->
  ScopeOps.define r name ty h = inr h' ->
  links_backward h' ∧ List.length h' = List.length h.
Proof.
  intros Hh. unfold ScopeOps.define.
  destruct (h !! r) as [sc|] eqn:Hsc; [|discriminate]. intros [= <-].
  split; [|apply length_insert].
  intros r1 sc1 r' Hsc1 Hlink.
  destruct (decide (r = r1)) as [<-|Hne].
  - rewrite list_lookup_insert_eq in Hsc1 by (eapply lookup_lt_Some; eauto).
    injection Hsc1 as <-. exact (Hh r sc r' Hsc Hlink).
  - rewrite list_lookup_insert_ne in Hsc1 by exact Hne.
    exact (Hh r1 sc1 r' Hsc1 Hlink).
Qed.

Lemma first_pass_preserves_scopes_wf :
  listener_preserves scopes_wf listener.
Proof.
  constructor; simpl; intros;
    try (apply stateless_preserves; unfold pass0, pass1, pass2, pass3;
         apply stateless_ret).
  - (* enterScript *)
    intros [h log cs] c' s' [Hh Hcs]. unfold enterScript, bind, get, put, ret.
    simpl. intros [= _ <-]. split; simpl.
    + apply links_backward_new; [exact Hh|discriminate].
    + intros r [= <-]. rewrite length_app. simpl. lia.
  - (* enterFuncDef *)
    intros s c' s' Hs. unfold enterFuncDef, log_add, bind, modify, ret.
    intros [= _ <-]. exact Hs.
  - (* enterFuncCall *)
    intros s c' s' Hs. unfold enterFuncCall, log_add, bind, modify, ret.
    intros [= _ <-]. exact Hs.
  - (* enterMain *)
    intros [h log cs] c' s' [Hh Hcs]. unfold enterMain, bind, get, put, ret.
    simpl. intros [= _ <-]. split; simpl.
    + apply links_backward_new; [exact Hh|exact Hcs].
    + intros r [= <-]. rewrite length_app. simpl. lia.
  - (* exitMain *)
    intros [h log cs] c' s' [Hh Hcs].
    unfold exitMain, current_scope_field, the_current_scope,
      set_current_scope, bind, get, lift, modify, ret. simpl in *.
    destruct cs as [r|]; [|discriminate]. simpl.
    destruct (h !! r) as [sc|] eqn:Hsc; [|discriminate]. simpl.
    intros [= _ <-]. split; simpl; [exact Hh|].
    intros r' Hlink. pose proof (Hh r sc r' Hsc Hlink).
    pose proof (Hcs r eq_refl). lia.
  - (* exitVarDec *)
    intros [h log cs] c' s' [Hh Hcs].
    unfold exitVarDec, duplicate_name, the_current_scope,
      ScopeOps.resolve_locally, log_add, bind, get, put, lift, modify, ret.
    simpl in *. destruct cs as [r|]; [|discriminate]. simpl.
    destruct (h !! r) as [sc|] eqn:Hsc; [|discriminate]. simpl.
    destruct (symbols sc !! x) as [sym|]; simpl.
    + intros [= _ <-]. split; assumption.
    + destruct (PrimitiveType.lookup ty) as [|t]; [discriminate|]. simpl.
      destruct (ScopeOps.define r x t h) as [|h'] eqn:Hdef; [discriminate|].
      intros [= _ <-].
      destruct (links_backward_define h h' r x t Hh Hdef) as [Hh' Hlen].
      split; simpl; [exact Hh'|]. rewrite Hlen. exact Hcs.
Qed.

(** After the first pass on any tree the scopes are well formed, so that
    [resolve] returns for every scope and every name. *)
Lemma first_pass_scopes (tree tree' : script) (s : Pass) :
  ParseTreeWalker.walk listener tree (init [] []) = inr (tree', s) ->
  scopes_wf s
  ∧ forall r name, r < List.length (store s) ->
      exists found, ScopeOps.resolve r name (store s) = inr found.
Proof.
  intros Hwalk.
  assert (Hwf : scopes_wf s).
  { refine (walk_preserves scopes_wf listener first_pass_preserves_scopes_wf
              tree (init [] []) tree' s _ Hwalk).
    split; [intros r sc r' Hsc; inversion Hsc|discriminate]. }
  split; [exact Hwf|].
  intros r name Hr. apply resolve_returns; [exact (proj1 Hwf)|exact Hr].
Qed.

End ScopesOfFirstPass.

(** * Walks inside the main body *)

Section InsideMain.
Context {S : Type} (P : S -> Prop) (L : NimbleListener S).
Context (HL : listener_preserves P (inside_main L)).

Lemma walk_expr_keeps (e : expr) : preserves P (ParseTreeWalker.walk_expr L e).
Proof. exact (walk_expr_preserves P (inside_main L) HL e). Qed.

Lemma walk_statement_keeps (s : statement) :
  preserves P (ParseTreeWalker.walk_statement L s).
Proof. exact (walk_statement_preserves P (inside_main L) HL s). Qed.

Lemma walk_block_keeps (b : block) :
  preserves P (ParseTreeWalker.walk_block L b).
Proof. exact (walk_block_preserves P (inside_main L) HL b). Qed.

Lemma walk_varDec_keeps (d : varDec) :
  preserves P (ParseTreeWalker.walk_varDec L d).
Proof.
  destruct d as [c x ty e]. unfold ParseTreeWalker.walk_varDec.
  apply preserves_bind.
  - apply walk_opt_preserves. intros a _. apply walk_expr_keeps.
  - intro. apply preserves_bind; [|intro; apply preserves_ret].
    exact (keeps_exitVarDec P (inside_main L) HL c x ty a).
Qed.

Lemma walk_body_keeps (b : body) : preserves P (ParseTreeWalker.walk_body L b).
Proof.
  destruct b as [c [cv ds] bl].
  unfold ParseTreeWalker.walk_body, ParseTreeWalker.walk_varBlock.
  apply preserves_bind; [|intro; apply preserves_bind;
                            [apply walk_block_keeps|intro]].
  - apply preserves_bind.
    + apply walk_list_preserves. apply Forall_forall. intros d _.
      apply walk_varDec_keeps.
    + intro. apply preserves_bind; [|intro; apply preserves_ret].
      exact (keeps_exitVarBlock P (inside_main L) HL cv a).
  - apply preserves_bind; [|intro; apply preserves_ret].
    exact (keeps_exitBody P (inside_main L) HL c a a0).
Qed.

End InsideMain.

(** The equations of the walk of a loop, of a conditional and of a block. *)
Section WalkEquations.
Context {S : Type} (L : NimbleListener S).

Lemma walk_statement_While (c : Ctx) (e : expr) (b : block) :
  ParseTreeWalker.walk_statement L (WhileContext c e b) =
    (let* e := ParseTreeWalker.walk_expr L e in
     let* b := ParseTreeWalker.walk_block L b in
     let* c := NimbleListener.exitWhile L c e b in
     ret (WhileContext c e b)).
Proof. reflexivity. Qed.


Lemma walk_block_Block (c : Ctx) (ss : list statement) :
  ParseTreeWalker.walk_block L (BlockContext c ss) =
    (let* ss := ParseTreeWalker.walk_list (ParseTreeWalker.walk_statement L) ss in
     let* c := NimbleListener.exitBlock L c ss in
     ret (BlockContext c ss)).
Proof. reflexivity. Qed.

End WalkEquations.

(** * The type checker on expressions and statements *)

Section LogOnly.

Lemma log_only_ret {A} (a : A) : log_only (ret a).
Proof.
  intros s a' s' [= _ <-]. repeat split. exists []. symmetry. apply app_nil_r.
Qed.

Lemma log_only_get : log_only get.
Proof.
  intros s a' s' [= _ <-]. repeat split. exists []. symmetry. apply app_nil_r.
Qed.

Lemma log_only_lift {A} (r : Exc PyError A) : log_only (lift r).
Proof.
  intros s a s'. unfold lift. destruct r; [discriminate|]. intros [= _ <-].
  repeat split. exists []. symmetry. apply app_nil_r.
Qed.

Lemma log_only_bind {A B} (m : Run Pass A) (k : A -> Run Pass B) :
  log_only m -> (forall a, log_only (k a)) -> log_only (bind m k).
Proof.
  intros Hm Hk s b s'. unfold bind.
  destruct (m s) as [e|[a s1]] eqn:Hms; [discriminate|]. intros Hks.
  destruct (Hm s a s1 Hms) as (Hst & Hcs & l1 & Hl1).
  destruct (Hk a s1 b s' Hks) as (Hst' & Hcs' & l2 & Hl2).
  split; [congruence|]. split; [congruence|].
  exists (l1 ++ l2). rewrite Hl2, Hl1, app_assoc. reflexivity.
Qed.

Lemma log_only_log_add (c : Ctx) (cat : Category) (msg : Message) :
  log_only (log_add c cat msg).
Proof.
  intros s a s' [= _ <-]. repeat split. eexists. reflexivity.
Qed.

End LogOnly.

Ltac logs :=
  repeat first
    [ apply log_only_ret
    | apply log_only_lift
    | apply log_only_get
    | apply log_only_log_add
    | apply log_only_bind; [|intro]
    | match goal with
      | |- log_only (if ?b then _ else _) => destruct b
      | |- log_only (match ?x with _ => _ end) => destruct x
      end ].

Section TypeCheckerWalk.
Import InferTypesAndCheckConstraints.

(** Inside the main body every method of the type checker leaves the scopes
    and the current scope alone and at most appends to the error log. *)
Lemma type_checker_log_only :
  (forall c x e, log_only (exitAssignment c x e))
  ∧ (forall c e b, log_only (exitWhile c e b))
  ∧ (forall c e b0 b1, log_only (exitIf c e b0 b1))
  ∧ (forall c e, log_only (exitPrint c e))
  ∧ (forall c e, log_only (exitReturn c e))
  ∧ (forall c f, log_only (exitFuncCallStmt c f))
  ∧ (forall c x ty e, log_only (exitVarDec c x ty e))
  ∧ (forall c op e, log_only (exitNeg c op e))
  ∧ (forall c op e0 e1, log_only (exitMulDiv c op e0 e1))
  ∧ (forall c op e0 e1, log_only (exitAddSub c op e0 e1))
  ∧ (forall c op e0 e1, log_only (exitCompare c op e0 e1))
  ∧ (forall c e, log_only (exitParens c e))
  ∧ (forall c, log_only (exitVariable c))
  ∧ (forall c f, log_only (exitFuncCallExpr c f)).
Proof.
  repeat match goal with |- _ ∧ _ => split end; intros;
    unfold exitAssignment, exitWhile, exitIf, check_boolean_condition,
      exitPrint, exitReturn, exitFuncCallStmt, exitVarDec, exitNeg, exitMulDiv,
      exitAddSub, exitCompare, binary_on_ints, exitParens, exitVariable,
      exitFuncCallExpr, log_invalid_assign, resolved_type, current_scope_field,
      the_current_scope, type_is, and_then;
    cbv zeta; logs.
Qed.

Lemma log_only_keeps {A} (s0 : Pass) (m : Run Pass A) :
  log_only m ->
  preserves (fun x => store x = store s0
                      ∧ current_scope x = current_scope s0
                      ∧ exists entries, error_log x = error_log s0 ++ entries)
            m.
Proof.
  intros Hm s a s' (Hst & Hcs & l & Hl) Hrun.
  destruct (Hm s a s' Hrun) as (Hst' & Hcs' & l' & Hl').
  split; [congruence|]. split; [congruence|].
  exists (l ++ l'). rewrite Hl', Hl, app_assoc. reflexivity.
Qed.

Lemma type_checker_inside_main (s0 : Pass) :
  listener_preserves
    (fun x => store x = store s0
              ∧ current_scope x = current_scope s0
              ∧ exists entries, error_log x = error_log s0 ++ entries)
    (inside_main listener).
Proof.
  destruct type_checker_log_only
    as (H1 & H2 & H3 & H4 & H5 & H6 & H7 & H8 & H9 & H10 & H11 & H12 & H13 & H14).
  constructor; simpl; intros; apply log_only_keeps;
    solve [ auto
          | unfold pass0, pass1, pass2, pass3, exitIntLiteral,
              exitStringLiteral, exitBoolLiteral; apply log_only_ret ].
Qed.

Lemma log_only_of_keeps {A} (m : Run Pass A) :
  (forall s0,
     preserves (fun x => store x = store s0
                         ∧ current_scope x = current_scope s0
                         ∧ exists entries, error_log x = error_log s0 ++ entries)
               m) ->
  log_only m.
Proof.
  intros Hm s a s' Hrun. apply (Hm s s a s'); [|exact Hrun].
  repeat split. exists []. symmetry. apply app_nil_r.
Qed.

(** The walk of an expression, of a statement and of a main body by the type
    checker leaves the scopes and the current scope as they are, and keeps
    every entry of the error log in its place: it only appends. *)
Theorem type_checker_only_appends :
  (forall e : expr, log_only (ParseTreeWalker.walk_expr listener e))
  ∧ (forall s : statement, log_only (ParseTreeWalker.walk_statement listener s))
  ∧ (forall b : body, log_only (ParseTreeWalker.walk_body listener b)).
Proof.
  split; [|split]; intros x; apply log_only_of_keeps; intros s0.
  - apply walk_expr_keeps, type_checker_inside_main.
  - apply walk_statement_keeps, type_checker_inside_main.
  - apply walk_body_keeps, type_checker_inside_main.
Qed.

Local Ltac crunch :=
  unfold exitNeg, exitMulDiv, exitAddSub, exitCompare, binary_on_ints,
    exitParens, exitVariable, exitIntLiteral, exitStringLiteral,
    exitBoolLiteral, exitFuncCallExpr, resolved_type, the_current_scope,
    type_is, and_then, log_add, bind, lift, ret, get, modify;
  intros; repeat (case_match; simplify_eq/=); eauto.

(** Every method for an expression node that returns has given the node its
    type. *)
Lemma expression_methods_set_type :
  (forall c op e s c' s', exitNeg c op e s = inr (c', s') -> is_Some (type c'))
  ∧ (forall c op e0 e1 s c' s',
       exitMulDiv c op e0 e1 s = inr (c', s') -> is_Some (type c'))
  ∧ (forall c op e0 e1 s c' s',
       exitAddSub c op e0 e1 s = inr (c', s') -> is_Some (type c'))
  ∧ (forall c op e0 e1 s c' s',
       exitCompare c op e0 e1 s = inr (c', s') -> is_Some (type c'))
  ∧ (forall c e s c' s', exitParens c e s = inr (c', s') -> is_Some (type c'))
  ∧ (forall c s c' s', exitVariable c s = inr (c', s') -> is_Some (type c'))
  ∧ (forall c f s c' s',
       exitFuncCallExpr c f s = inr (c', s') -> is_Some (type c')).
Proof. repeat match goal with |- _ ∧ _ => split end; crunch. Qed.

(** An expression that the type checker has walked carries a type on every
    one of its nodes. *)
Theorem type_checker_types_every_node (e e' : expr) (s s' : Pass) :
  ParseTreeWalker.walk_expr listener e s = inr (e', s') ->
  all_typed e'.
Proof.
  destruct expression_methods_set_type
    as (HNeg & HMul & HAdd & HCmp & HPar & HVar & HCall).
  revert e' s s'.
  induction e as [c op e IH|c op e0 IH0 e1 IH1|c op e0 IH0 e1 IH1
                 |c op e0 IH0 e1 IH1|c e IH|c|c i|c|c b|c f];
    intros e' s s' Hwalk; cbn [ParseTreeWalker.walk_expr] in Hwalk;
    unfold bind in Hwalk; cbn [NimbleListener.exitNeg NimbleListener.exitMulDiv
      NimbleListener.exitAddSub NimbleListener.exitCompare
      NimbleListener.exitParens NimbleListener.exitVariable
      NimbleListener.exitIntLiteral NimbleListener.exitStringLiteral
      NimbleListener.exitBoolLiteral NimbleListener.exitFuncCallExpr
      listener] in Hwalk.
  - destruct (ParseTreeWalker.walk_expr listener e s) as [|[a s1]] eqn:He;
      [discriminate|].
    destruct (exitNeg c op a s1) as [|[c' s2]] eqn:Hexit; [discriminate|].
    injection Hwalk as <- _. split; [exact (HNeg _ _ _ _ _ _ Hexit)|].
    exact (IH _ _ _ He).
  - destruct (ParseTreeWalker.walk_expr listener e0 s) as [|[a0 s0]] eqn:He0;
      [discriminate|].
    destruct (ParseTreeWalker.walk_expr listener e1 s0) as [|[a1 s1]] eqn:He1;
      [discriminate|].
    destruct (exitMulDiv c op a0 a1 s1) as [|[c' s2]] eqn:Hexit;
      [discriminate|].
    injection Hwalk as <- _. split; [exact (HMul _ _ _ _ _ _ _ Hexit)|].
    split; [exact (IH0 _ _ _ He0)|exact (IH1 _ _ _ He1)].
  - destruct (ParseTreeWalker.walk_expr listener e0 s) as [|[a0 s0]] eqn:He0;
      [discriminate|].
    destruct (ParseTreeWalker.walk_expr listener e1 s0) as [|[a1 s1]] eqn:He1;
      [discriminate|].
    destruct (exitAddSub c op a0 a1 s1) as [|[c' s2]] eqn:Hexit;
      [discriminate|].
    injection Hwalk as <- _. split; [exact (HAdd _ _ _ _ _ _ _ Hexit)|].
    split; [exact (IH0 _ _ _ He0)|exact (IH1 _ _ _ He1)].
  - destruct (ParseTreeWalker.walk_expr listener e0 s) as [|[a0 s0]] eqn:He0;
      [discriminate|].
    destruct (ParseTreeWalker.walk_expr listener e1 s0) as [|[a1 s1]] eqn:He1;
      [discriminate|].
    destruct (exitCompare c op a0 a1 s1) as [|[c' s2]] eqn:Hexit;
      [discriminate|].
    injection Hwalk as <- _. split; [exact (HCmp _ _ _ _ _ _ _ Hexit)|].
    split; [exact (IH0 _ _ _ He0)|exact (IH1 _ _ _ He1)].
  - destruct (ParseTreeWalker.walk_expr listener e s) as [|[a s1]] eqn:He;
      [discriminate|].
    destruct (exitParens c a s1) as [|[c' s2]] eqn:Hexit; [discriminate|].
    injection Hwalk as <- _. split; [exact (HPar _ _ _ _ _ Hexit)|].
    exact (IH _ _ _ He).
  - destruct (exitVariable c s) as [|[c' s2]] eqn:Hexit; [discriminate|].
    injection Hwalk as <- _. split; [exact (HVar _ _ _ _ Hexit)|exact I].
  - injection Hwalk as <- _. split; [eexists; reflexivity|exact I].
  - injection Hwalk as <- _. split; [eexists; reflexivity|exact I].
  - injection Hwalk as <- _. split; [eexists; reflexivity|exact I].
  - destruct (ParseTreeWalker.walk_funcCall listener f s) as [|[f' s1]] eqn:Hf;
      [discriminate|].
    destruct (exitFuncCallExpr c f' s1) as [|[c' s2]] eqn:Hexit;
      [discriminate|].
    injection Hwalk as <- _. split; [exact (HCall _ _ _ _ _ Hexit)|exact I].
Qed.

Lemma type_checker_types_every_node_witness :
  exists e' s',
    ParseTreeWalker.walk_expr listener one_plus_true in_empty_main
    = inr (e', s')
    ∧ all_typed e'.
Proof.
  eexists _, _. split; [reflexivity|].
  exact (type_checker_types_every_node one_plus_true _ in_empty_main _ eq_refl).
Defined.

End TypeCheckerWalk.

(** * The first pass on a whole tree *)

Section FirstPass.
Import DefineScopesAndSymbols.






Lemma unsupported_definitions_category (fs : list funcDef) :
  Forall first_pass_category (map unsupported_definition fs).
Proof. apply Forall_forall. intros entry Hin.
  apply list_elem_of_fmap in Hin as (f & -> & _). left. reflexivity.
Qed.














End FirstPass.

(** * The checks of the type checker on statements *)

Section StatementChecks.
Import InferTypesAndCheckConstraints.

Local Ltac run :=
  unfold exitIf, exitWhile, check_boolean_condition, exitPrint, exitVarDec,
    exitReturn, log_invalid_assign, current_scope_field, the_current_scope,
    log_add, logged, bind, lift, ret, get, modify.

(** The condition of a conditional or of a loop is accepted exactly when its
    type is Bool; any other type, ERROR included, appends one
    CONDITION_NOT_BOOL entry that names the construct. *)
Theorem condition_must_be_bool
    (c : Ctx) (e : expr) (b0 : block) (b1 : option block)
    (t : PrimitiveType.t) (s : Pass) :
  type_of e = inr t ->
  let outcome (kind : string) : Exc PyError (Ctx * Pass) :=
    if decide (t = PrimitiveType.Bool) then inr (c, s)
    else inr (c, logged c CONDITION_NOT_BOOL
                   [Text kind; Text " condition "; Text (text c);
                    Text " has type "; OfType t; Text " not Bool"] s) in
  exitIf c e b0 b1 s = outcome "If" ∧ exitWhile c e b0 s = outcome "While".
Proof.
  intros Ht; cbv zeta; run; rewrite Ht.
  destruct t; split; reflexivity.
Qed.

Lemma condition_must_be_bool_witness :
  type_of (int_literal "5") = inr PrimitiveType.Int
  ∧ exitIf (parsed "if5{}") (int_literal "5") (BlockContext (parsed "") [])
      None in_empty_main
    = inr (parsed "if5{}",
           logged (parsed "if5{}") CONDITION_NOT_BOOL
             [Text "If"; Text " condition "; Text "if5{}";
              Text " has type "; OfType PrimitiveType.Int; Text " not Bool"]
             in_empty_main).
Proof.
  split; [reflexivity|].
  exact (proj1 (condition_must_be_bool (parsed "if5{}") (int_literal "5")
                  (BlockContext (parsed "") []) None PrimitiveType.Int
                  in_empty_main eq_refl)).
Defined.

(** A declaration is checked against the type that its own type token
    names, whatever the scopes bind the name to: without initializer nothing
    is logged; with an initializer of another type one ASSIGN_TO_WRONG_TYPE
    entry is appended; a type token that names no type raises KeyError. *)
Theorem declaration_checked_against_own_type
    (c : Ctx) (ID TYPE : string) (s : Pass) :
  match PrimitiveType.lookup TYPE with
  | inl err => forall e, exitVarDec c ID TYPE e s = inl err
  | inr declared =>
      exitVarDec c ID TYPE None s = inr (c, s)
      ∧ forall (e : expr) (t : PrimitiveType.t),
          type_of e = inr t ->
          exitVarDec c ID TYPE (Some e) s =
            if decide (declared = t) then inr (c, s)
            else inr (c, logged c ASSIGN_TO_WRONG_TYPE
                           [Text "Can't assign "; OfType t;
                            Text " expression to variable "; Text ID;
                            Text " of type "; OfType declared] s)
  end.
Proof.
  run. destruct (PrimitiveType.lookup TYPE) as [err|declared].
  - intros e. reflexivity.
  - split; [reflexivity|]. intros e t Ht. rewrite Ht.
    destruct (decide (declared = t)) as [Heq|Hne].
    + rewrite decide_False by (intros ?; contradiction). reflexivity.
    + rewrite decide_True by assumption. reflexivity.
Qed.

(** A return statement is accepted exactly when the type of its expression,
    or Void when it has none, is the return type of the current scope;
    otherwise one INVALID_RETURN entry is appended. *)
Theorem return_checked_against_scope
    (c : Ctx) (s : Pass) (r : ScopeRef) (sc : Scope) :
  current_scope s = Some r ->
  store s !! r = Some sc ->
  let outcome (returned : PrimitiveType.t) : Exc PyError (Ctx * Pass) :=
    if decide (return_type sc = returned) then inr (c, s)
    else inr (c, logged c INVALID_RETURN
                   [Text "Required to return "; OfType (return_type sc);
                    Text ", returns "; OfType returned] s) in
  exitReturn c None s = outcome PrimitiveType.Void
  ∧ forall (e : expr) (t : PrimitiveType.t),
      type_of e = inr t -> exitReturn c (Some e) s = outcome t.
Proof.
  intros Hr Hsc; cbv zeta; run. rewrite Hr; simpl. rewrite Hsc; simpl.
  split.
  - destruct (decide (return_type sc = PrimitiveType.Void)) as [Heq|Hne].
    + rewrite decide_False by (intros ?; contradiction). reflexivity.
    + rewrite decide_True by assumption. rewrite <- Hr. reflexivity.
  - intros e t Ht. rewrite Ht.
    destruct (decide (return_type sc = t)) as [Heq|Hne].
    + rewrite decide_False by (intros ?; contradiction). reflexivity.
    + rewrite decide_True by assumption. rewrite <- Hr. reflexivity.
Qed.

Lemma return_checked_against_scope_witness :
  current_scope in_empty_main = Some 1
  ∧ store in_empty_main !! 1
    = Some (mkScope "$main" PrimitiveType.Void (Some 0) ∅)
  ∧ exitReturn (parsed "return") None in_empty_main
    = inr (parsed "return", in_empty_main)
  ∧ exitReturn (parsed "return5") (Some (int_literal "5")) in_empty_main
    = inr (parsed "return5",
           logged (parsed "return5") INVALID_RETURN
             [Text "Required to return "; OfType PrimitiveType.Void;
              Text ", returns "; OfType PrimitiveType.Int] in_empty_main).
Proof.
  split; [reflexivity|]. split; [reflexivity|].
  pose proof (return_checked_against_scope (parsed "return") in_empty_main 1
                (mkScope "$main" PrimitiveType.Void (Some 0) ∅)
                eq_refl eq_refl) as Hplain.
  pose proof (return_checked_against_scope (parsed "return5") in_empty_main 1
                (mkScope "$main" PrimitiveType.Void (Some 0) ∅)
                eq_refl eq_refl) as Hvalue.
  split; [exact (proj1 Hplain)|].
  exact (proj2 Hvalue (int_literal "5") PrimitiveType.Int eq_refl).
Defined.

(** A print statement is refused exactly when the type of its expression is
    ERROR: then one UNPRINTABLE_EXPRESSION entry is appended; an expression
    of any other type, String, Bool, Int or Void, is accepted. *)
Theorem print_refuses_error_type
    (c : Ctx) (e : expr) (t : PrimitiveType.t) (s : Pass) :
  type_of e = inr t ->
  exitPrint c e s =
    if decide (t = PrimitiveType.ERROR)
    then inr (c, logged c UNPRINTABLE_EXPRESSION
                   [Text "Can't print expression "; Text (text c);
                    Text " as it has type ERROR"] s)
    else inr (c, s).
Proof. intros Ht; run; rewrite Ht. destruct t; reflexivity. Qed.

Lemma print_refuses_error_type_witness :
  type_of error_typed = inr PrimitiveType.ERROR
  ∧ exitPrint (parsed "printx") error_typed in_empty_main
    = inr (parsed "printx",
           logged (parsed "printx") UNPRINTABLE_EXPRESSION
             [Text "Can't print expression "; Text "printx";
              Text " as it has type ERROR"] in_empty_main).
Proof.
  split; [reflexivity|].
  exact (print_refuses_error_type (parsed "printx") error_typed
           PrimitiveType.ERROR in_empty_main eq_refl).
Defined.

(** The type checker cannot pass a function call: the call node never gets
    a type, so the walk of a call expression and of a call statement, as the
    parser delivers them, raises AttributeError and logs nothing. *)
Theorem type_checker_stops_at_function_call
    (c cf : Ctx) (s : Pass) :
  ParseTreeWalker.walk_expr listener
    (FuncCallExprContext c (FuncCallContext (mkCtx (text cf) (scope cf) None
                                               (mips cf)))) s
  = inl AttributeError
  ∧ ParseTreeWalker.walk_statement listener
      (FuncCallStmtContext c (FuncCallContext (mkCtx (text cf) (scope cf) None
                                                 (mips cf)))) s
    = inl AttributeError.
Proof. split; reflexivity. Qed.

End StatementChecks.

(** * More on the code generator *)

Section GeneratorFragments.
Import MIPSGenerator.

Lemma format_load_immediate (value : string) :
  PyStr.format "li     $t0 {}" [value] [] = inr ("li     $t0 " +:+ value).
Proof.
  transitivity (@inr PyError string ("li     $t0 " +:+ value +:+ ""));
    [reflexivity|]. rewrite append_empty_r. reflexivity.
Qed.

Lemma exitIntLiteral_code (c : Ctx) (token : string) (s : Gen) :
  exitIntLiteral c token s = inr (set_mips ("li     $t0 " +:+ token) c, s).
Proof.
  unfold exitIntLiteral, bind, lift, ret. rewrite format_load_immediate.
  reflexivity.
Qed.

Lemma exitBoolLiteral_code (c : Ctx) (token : string) (s : Gen) :
  exitBoolLiteral c token s =
    inr (set_mips ("li     $t0 " +:+
                   (if decide (token = "true") then "1" else "0")) c, s).
Proof.
  unfold exitBoolLiteral, bind, lift, ret. rewrite format_load_immediate.
  destruct (decide (token = "true")); reflexivity.
Qed.

(** The fragment of a literal loads it into [$t0]: the text of an integer
    literal as it is, 1 for the boolean literal [true] and 0 for any other
    boolean literal. *)
Theorem literal_fragments (c : Ctx) (token : string) (s : Gen) :
  exitIntLiteral c token s = inr (set_mips ("li     $t0 " +:+ token) c, s)
  ∧ exitBoolLiteral c token s =
      inr (set_mips ("li     $t0 " +:+
                     (if decide (token = "true") then "1" else "0")) c, s).
Proof. split; [apply exitIntLiteral_code|apply exitBoolLiteral_code]. Qed.

Lemma exitIf_code
    (c : Ctx) (e : expr) (b0 : block) (b1 : option block)
    (condition true_block : string) (s : Gen) :
  mips_of (expr_ctx e) = inr condition ->
  mips_of (block_ctx b0) = inr true_block ->
  exitIf c e b0 b1 s =
    inr (set_mips
           (condition +:+ PyStr.newline +:+
            "li     $t1 0" +:+ PyStr.newline +:+
            "beq    $t0 $t1 " +:+
            ("endif" +:+ "_" +:+ PyStr.of_int (label_index s + 1)) +:+
            PyStr.newline +:+
            true_block +:+ PyStr.newline +:+
            ("endif" +:+ "_" +:+ PyStr.of_int (label_index s + 1)) +:+
            ":" +:+ PyStr.newline) c,
         mkGen (label_index s + 1) (string_literals s) (current_scope s)).
Proof.
  intros He Hb. unfold exitIf, bind, lift. rewrite He, Hb.
  rewrite unique_label_run. reflexivity.
Qed.

(** The fragment of a conditional: the condition, a branch to a new label
    [endif_n] when [$t0] is 0, the first block, and the label.  The counter
    goes up by one.  A second block, the else branch, does not appear in
    the fragment. *)
Theorem if_fragment
    (c : Ctx) (e : expr) (b0 : block) (b1 : option block)
    (condition true_block : string) (s : Gen) :
  mips_of (expr_ctx e) = inr condition ->
  mips_of (block_ctx b0) = inr true_block ->
  let label := "endif" +:+ "_" +:+ PyStr.of_int (label_index s + 1) in
  exitIf c e b0 b1 s =
    inr (set_mips
           (condition +:+ PyStr.newline +:+
            "li     $t1 0" +:+ PyStr.newline +:+
            "beq    $t0 $t1 " +:+ label +:+ PyStr.newline +:+
            true_block +:+ PyStr.newline +:+
            label +:+ ":" +:+ PyStr.newline) c,
         mkGen (label_index s + 1) (string_literals s) (current_scope s)).
Proof. intros He Hb label. exact (exitIf_code c e b0 b1 _ _ s He Hb). Qed.

Lemma if_fragment_witness :
  mips_of (expr_ctx generated_true) = inr "li     $t0 1"
  ∧ mips_of (block_ctx (generated_block "syscall")) = inr "syscall"
  ∧ exitIf (parsed "iftrue{}else{}") generated_true
      (generated_block "syscall") (Some (generated_block "jr     $ra")) init
    = inr (set_mips
             ("li     $t0 1" +:+ PyStr.newline +:+
              "li     $t1 0" +:+ PyStr.newline +:+
              "beq    $t0 $t1 endif_0" +:+ PyStr.newline +:+
              "syscall" +:+ PyStr.newline +:+
              "endif_0:" +:+ PyStr.newline) (parsed "iftrue{}else{}"),
           mkGen 0 [] None).
Proof.
  split; [reflexivity|]. split; [reflexivity|].
  exact (if_fragment (parsed "iftrue{}else{}") generated_true
           (generated_block "syscall") (Some (generated_block "jr     $ra"))
           "li     $t0 1" "syscall" init eq_refl eq_refl).
Defined.



(** The fragment of a sum or a difference: the left operand, a push of
    [$t0], the right operand, a pop into [$s1], and [add] for the operator
    [+], [sub] for any other operator. *)
Theorem sum_fragment (c : Ctx) (op : string) (e0 e1 : expr)
    (code0 code1 : string) (s : Gen) :
  mips_of (expr_ctx e0) = inr code0 ->
  mips_of (expr_ctx e1) = inr code1 ->
  exitAddSub c op e0 e1 s =
    inr (set_mips
           (code0 +:+ PyStr.newline +:+
            PyStr.lines ["sw     $t0 0($sp) "; "addiu  $sp $sp -4 "] +:+
            code1 +:+ PyStr.newline +:+
            PyStr.lines ["lw     $s1 4($sp) ";
                         (if decide (op = "+") then "add" else "sub")
                           +:+ "    $t0 $s1 $t0 ";
                         "addiu  $sp $sp 4"]) c, s).
Proof. exact (exitAddSub_fragment c op e0 e1 code0 code1 s). Qed.

Lemma sum_fragment_witness :
  mips_of (expr_ctx generated_two) = inr "li     $t0 2"
  ∧ exitAddSub (parsed "2-2") "-" generated_two generated_two init =
      inr (set_mips
             ("li     $t0 2" +:+ PyStr.newline +:+
              PyStr.lines ["sw     $t0 0($sp) "; "addiu  $sp $sp -4 "] +:+
              "li     $t0 2" +:+ PyStr.newline +:+
              PyStr.lines ["lw     $s1 4($sp) "; "sub    $t0 $s1 $t0 ";
                           "addiu  $sp $sp 4"]) (parsed "2-2"), init).
Proof.
  split; [reflexivity|].
  exact (sum_fragment (parsed "2-2") "-" generated_two generated_two
           "li     $t0 2" "li     $t0 2" init eq_refl eq_refl).
Defined.

End GeneratorFragments.

(** * What the generator compiles and what it does not *)

Section SupportedFragment.
Import MIPSGenerator.













End SupportedFragment.

Section UnsupportedConstructs.
Import MIPSGenerator.

(** The walk returns an expression without code as it found it: without a
    fragment. *)
Lemma expression_without_code_walk (e e' : expr) (s s' : Gen) :
  expression_without_code e ->
  ParseTreeWalker.walk_expr listener e s = inr (e', s') ->
  mips (expr_ctx e') = None.
Proof.
  destruct e as [c op e|c op e0 e1|c op e0 e1|c op e0 e1|c e|c|c i|c|c b|c [cf]];
    cbn [expression_without_code]; try (intros []; fail); intros Hc Hwalk;
    cbn [ParseTreeWalker.walk_expr] in Hwalk; unfold bind in Hwalk;
    repeat match type of Hwalk with
           | context [ParseTreeWalker.walk_expr listener ?x ?y] =>
               destruct (ParseTreeWalker.walk_expr listener x y) as [|[? ?]];
               [discriminate|]
           end;
    injection Hwalk as <- _; exact Hc.
Qed.

(** The walk returns a statement without code as it found it: without a
    fragment. *)
Lemma without_code_walk (st st' : statement) (s s' : Gen) :
  without_code st ->
  ParseTreeWalker.walk_statement listener st s = inr (st', s') ->
  mips (statement_ctx st') = None.
Proof.
  destruct st as [c x e|c e b|c e b0 b1|c e|c [e|]|c [cf]];
    cbn [without_code]; try (intros []; fail); intros Hc Hwalk.
  - cbn [ParseTreeWalker.walk_statement] in Hwalk. unfold bind in Hwalk.
    destruct (ParseTreeWalker.walk_expr listener e s) as [|[? ?]];
      [discriminate|].
    injection Hwalk as <- _. exact Hc.
  - rewrite walk_statement_While in Hwalk. unfold bind in Hwalk.
    destruct (ParseTreeWalker.walk_expr listener e s) as [|[? ?]];
      [discriminate|].
    destruct (ParseTreeWalker.walk_block listener b _) as [|[? ?]];
      [discriminate|].
    injection Hwalk as <- _. exact Hc.
  - cbn [ParseTreeWalker.walk_statement ParseTreeWalker.walk_opt] in Hwalk.
    unfold bind in Hwalk.
    destruct (ParseTreeWalker.walk_expr listener e s) as [|[? ?]];
      [discriminate|].
    injection Hwalk as <- _. exact Hc.
  - injection Hwalk as <- _. exact Hc.
  - injection Hwalk as <- _. exact Hc.
Qed.

Lemma walk_list_member {A} (w : A -> Run Gen A) (l l' : list A) (a : A)
    (s s' : Gen) :
  a ∈ l ->
  ParseTreeWalker.walk_list w l s = inr (l', s') ->
  exists a' sa sb, a' ∈ l' ∧ w a sa = inr (a', sb).
Proof.
  intros Hin. revert l' s. induction Hin as [a l|a b l _ IH]; intros l' s Hwalk;
    cbn [ParseTreeWalker.walk_list] in Hwalk; unfold bind in Hwalk.
  - destruct (w a s) as [|[a' s1]] eqn:Ha; [discriminate|].
    destruct (ParseTreeWalker.walk_list w l s1) as [|[l1 s2]]; [discriminate|].
    injection Hwalk as <- <-. exists a', s, s1. split; [left|exact Ha].
  - destruct (w b s) as [|[b' s1]]; [discriminate|].
    destruct (ParseTreeWalker.walk_list w l s1) as [|[l1 s2]] eqn:Hl;
      [discriminate|].
    injection Hwalk as <- <-.
    destruct (IH l1 s1 Hl) as (a' & sa & sb & Hin' & Ha).
    exists a', sa, sb. split; [right; exact Hin'|exact Ha].
Qed.

Lemma mips_of_statements_missing (ss : list statement) (st : statement) :
  st ∈ ss -> mips (statement_ctx st) = None ->
  mips_of_statements ss = inl AttributeError.
Proof.
  intros Hin Hm. induction Hin as [st ss|st st0 ss _ IH];
    cbn [mips_of_statements].
  - unfold mips_of. rewrite Hm. reflexivity.
  - destruct (mips_of (statement_ctx st0)) as [[]|code] eqn:H0;
      try reflexivity; unfold mips_of, getattr in H0;
      destruct (mips (statement_ctx st0)); try discriminate.
    rewrite (IH Hm). reflexivity.
Qed.

(** The generator has no code for an assignment, a loop, a return and a call
    statement: the walk of a block that holds one never returns a block. *)
Theorem block_with_statement_without_code
    (c : Ctx) (ss : list statement) (st : statement) (s : Gen) :
  st ∈ ss -> without_code st ->
  exists err, ParseTreeWalker.walk_block listener (BlockContext c ss) s = inl err.
Proof.
  intros Hin Hst. rewrite walk_block_Block. unfold bind.
  destruct (ParseTreeWalker.walk_list _ ss s) as [err|[ss' s1]] eqn:Hwalk;
    [exists err; reflexivity|].
  destruct (walk_list_member _ ss ss' st s s1 Hin Hwalk)
    as (st' & sa & sb & Hin' & Hst').
  pose proof (without_code_walk st st' sa sb Hst Hst') as Hm.
  cbn [NimbleListener.exitBlock listener]. unfold exitBlock, bind, lift.
  rewrite (mips_of_statements_missing ss' st' Hin' Hm).
  eexists. reflexivity.
Qed.

Lemma block_with_statement_without_code_witness :
  assign_five ∈ [assign_five]
  ∧ without_code assign_five
  ∧ exists err,
      ParseTreeWalker.walk_block listener
        (BlockContext (parsed "x=5") [assign_five]) init = inl err.
Proof.
  assert (Hin : assign_five ∈ [assign_five]) by (left).
  split; [exact Hin|]. split; [reflexivity|].
  exact (block_with_statement_without_code (parsed "x=5") [assign_five]
           assign_five init Hin eq_refl).
Defined.

(** The generator has no code for a variable, a negation, a parenthesis, a
    product, a comparison and a call: the walk of a print statement over
    one, and of a sum or difference with one as an operand, never returns. *)
Theorem expression_without_code_stops_generation
    (c : Ctx) (op : string) (e other : expr) (s : Gen) :
  expression_without_code e ->
  (exists err,
     ParseTreeWalker.walk_statement listener (PrintContext c e) s = inl err)
  ∧ (exists err,
       ParseTreeWalker.walk_expr listener (AddSubContext c op e other) s
       = inl err)
  ∧ (exists err,
       ParseTreeWalker.walk_expr listener (AddSubContext c op other e) s
       = inl err).
Proof.
  intros He. split; [|split].
  - destruct (ParseTreeWalker.walk_expr listener e s) as [err|[e' s']] eqn:Hw.
    + exists err. cbn [ParseTreeWalker.walk_statement]. unfold bind.
      rewrite Hw. reflexivity.
    + exact (print_without_fragment c e e' s s' Hw
               (expression_without_code_walk e e' s s' He Hw)).
  - cbn [ParseTreeWalker.walk_expr]. unfold bind.
    destruct (ParseTreeWalker.walk_expr listener e s) as [err|[e' s']] eqn:Hw;
      [exists err; reflexivity|].
    destruct (ParseTreeWalker.walk_expr listener other s')
      as [err|[o' s'']]; [exists err; reflexivity|].
    cbn [NimbleListener.exitAddSub listener].
    unfold exitAddSub, bind, lift, mips_of.
    rewrite (expression_without_code_walk e e' s s' He Hw).
    eexists. reflexivity.
  - cbn [ParseTreeWalker.walk_expr]. unfold bind.
    destruct (ParseTreeWalker.walk_expr listener other s)
      as [err|[o' s']]; [exists err; reflexivity|].
    destruct (ParseTreeWalker.walk_expr listener e s') as [err|[e' s'']] eqn:Hw;
      [exists err; reflexivity|].
    cbn [NimbleListener.exitAddSub listener].
    unfold exitAddSub, bind, lift, mips_of.
    rewrite (expression_without_code_walk e e' s' s'' He Hw).
    destruct (mips (expr_ctx o')); eexists; reflexivity.
Qed.

Lemma expression_without_code_stops_generation_witness :
  expression_without_code (VariableContext (parsed "x"))
  ∧ exists err,
      ParseTreeWalker.walk_statement listener
        (PrintContext (parsed "printx") (VariableContext (parsed "x"))) init
      = inl err.
Proof.
  split; [reflexivity|].
  exact (proj1 (expression_without_code_stops_generation (parsed "printx") "+"
                  (VariableContext (parsed "x")) (int_literal "1") init
                  eq_refl)).
Defined.

End UnsupportedConstructs.

(** * The names that the first pass declares *)

Section Declarations.
Import DefineScopesAndSymbols.








End Declarations.

(** * The data section and the string literals of a program *)

Section DataSection.
Import MIPSGenerator.





















End DataSection.

(** * The batch driver *)

Section Driver.

(** The analysis of a tree always ends in a built-in exception. *)
Lemma analysis_escapes (tree : script) :
  exists e, do_semantic_analysis tree = inl (Builtin e).
Proof.
  unfold do_semantic_analysis, run_walk.
  destruct (ParseTreeWalker.walk DefineScopesAndSymbols.listener tree _)
    as [e|[[c fs m] s1]]; eexists; reflexivity.
Qed.

Lemma compile_file_parsed (name : string) (tree : script) :
  exists e,
    batch_compile.compile_file name (batch_compile.Parsed tree) =
      ([batch_compile.FileWritten (batch_compile.mips_filename name)
          (batch_compile.Text "")],
       Some (batch_compile.Uncaught e)).
Proof.
  destruct (analysis_escapes tree) as [e He]. exists e.
  unfold batch_compile.compile_file, batch_compile.try_compile.
  rewrite He. reflexivity.
Qed.

(** The batch stops at the first file that the parser accepts.  The files
    before it, in which the parser found syntax errors, have their message
    printed and written; for the accepted file nothing is printed, an empty
    file is written, and a built-in exception leaves the driver; the files
    after it are not touched.  When the parser accepts no file, the batch
    completes. *)
Theorem batch_stops_at_first_parsed_file
    (parse : string -> batch_compile.Parse) (rejected : list (string * string)) :
  Forall (fun file => parse file.1 = batch_compile.RaisesSyntaxErrors file.2)
         rejected ->
  let reported :=
    concat (map (fun file => syntax_errors_reported file.1 file.2) rejected) in
  batch_compile.compile_nimble_source_files parse (rejected.*1)
  = (reported, None)
  ∧ forall (name : string) (tree : script) (later : list string),
      parse name = batch_compile.Parsed tree ->
      exists e,
        batch_compile.compile_nimble_source_files parse
          (rejected.*1 ++ name :: later)
        = (reported
             ++ [batch_compile.FileWritten (batch_compile.mips_filename name)
                   (batch_compile.Text "")],
           Some (batch_compile.Uncaught e)).
Proof.
  induction 1 as [|[name0 se] rejected Hparse _ IH]; cbv zeta.
  - split; [reflexivity|]. intros name tree later Hname.
    destruct (compile_file_parsed name tree) as [e He]. exists e.
    cbn [fmap list_fmap app map concat batch_compile.compile_nimble_source_files].
    rewrite Hname, He. reflexivity.
  - cbv zeta in IH. destruct IH as [IH1 IH2]. simpl in Hparse.
    rewrite fmap_cons. cbn [fst snd map concat].
    split.
    + cbn [batch_compile.compile_nimble_source_files].
      rewrite Hparse, IH1. reflexivity.
    + intros name tree later Hname.
      destruct (IH2 name tree later Hname) as [e He]. exists e.
      rewrite <- app_comm_cons.
      cbn [batch_compile.compile_nimble_source_files].
      rewrite Hparse, He. rewrite <- app_assoc. reflexivity.
Qed.

Lemma batch_stops_at_first_parsed_file_witness :
  Forall (fun file => sample_parse file.1
                      = batch_compile.RaisesSyntaxErrors file.2)
         [("broken.nim", "line 1:0 mismatched input")]
  ∧ exists e,
      batch_compile.compile_nimble_source_files sample_parse
        ["broken.nim"; "first.nim"; "second.nim"]
      = (syntax_errors_reported "broken.nim" "line 1:0 mismatched input"
           ++ [batch_compile.FileWritten "first.asm" (batch_compile.Text "")],
         Some (batch_compile.Uncaught e)).
Proof.
  assert (H : Forall (fun file => sample_parse file.1
                                  = batch_compile.RaisesSyntaxErrors file.2)
                     [("broken.nim", "line 1:0 mismatched input")])
    by (repeat constructor).
  split; [exact H|].
  exact (proj2 (batch_stops_at_first_parsed_file sample_parse _ H)
           "first.nim" print_one ["second.nim"] eq_refl).
Defined.

Lemma before_first_dot_app (stem rest : string) :
  ¬ occurs "." stem ->
  batch_compile.before_first_dot (stem +:+ "." +:+ rest) = stem.
Proof.
  induction stem as [|c stem IH]; intros Hdot.
  - reflexivity.
  - rewrite append_String. cbn [batch_compile.before_first_dot].
    rewrite decide_False by (intros ->; apply Hdot; left; reflexivity).
    rewrite IH; [reflexivity|]. intros H. apply Hdot. right. exact H.
Qed.

(** The name of the output file is the source name up to its first dot:
    two sources that differ only after that dot are written to the same
    file. *)
Theorem mips_filename_up_to_first_dot (stem rest rest' : string) :
  ¬ occurs "." stem ->
  batch_compile.mips_filename (stem +:+ "." +:+ rest) = stem +:+ ".asm"
  ∧ batch_compile.mips_filename (stem +:+ "." +:+ rest)
    = batch_compile.mips_filename (stem +:+ "." +:+ rest').
Proof.
  intros Hdot. unfold batch_compile.mips_filename.
  rewrite !before_first_dot_app by exact Hdot. split; reflexivity.
Qed.

Lemma mips_filename_up_to_first_dot_witness :
  ¬ occurs "." "loops"
  ∧ batch_compile.mips_filename "loops.v1.nim" = "loops.asm"
  ∧ batch_compile.mips_filename "loops.v1.nim"
    = batch_compile.mips_filename "loops.v2.nim".
Proof.
  assert (H : ¬ occurs "." "loops").
  { simpl. intros Hu.
    repeat (destruct Hu as [Hu|Hu]; [discriminate|]). exact Hu. }
  split; [exact H|].
  exact (mips_filename_up_to_first_dot "loops" "v1.nim" "v2.nim" H).
Defined.

End Driver.
